(** * Kinova Kortex Gen3 examples: drawing.py and 02-gripper_grabPen.py

    A shallow embedding of the two example programs and of the part of
    the Kortex client API they call, followed by the properties of the
    action dispatchers, of the motion sequence and of the gripper loops.

    Python floats are IEEE 754 binary64 values: they are Rocq's
    primitive floats, so the arithmetic of the programs is evaluated
    bit for bit. A message field holds the Python float assigned to it;
    the encoding of a message on the wire is below this model. The
    [print] statements write to the standard output alone and are left
    out. *)

From Stdlib Require Import ZArith Floats.
From stdpp Require Import base tactics option list strings.

#[local] Set Warnings "-inexact-float".

(** ** The Kortex client API, as the examples use it *)

Module Kortex.

(** [Base_pb2.ActionEvent] *)
Inductive ActionEvent : Set :=
| UNSPECIFIED_ACTION_EVENT
| ACTION_END
| ACTION_ABORT
| ACTION_PAUSE
| ACTION_START
| ACTION_PREPROCESS_START
| ACTION_PREPROCESS_ABORT
| ACTION_PREPROCESS_END
| ACTION_FEEDBACK.

#[global] Instance ActionEvent_eq_dec : EqDecision ActionEvent.
Proof. solve_decision. Defined.

(** [Base_pb2.ServoingMode] *)
Inductive ServoingMode : Set :=
| UNSPECIFIED_SERVOING_MODE
| SINGLE_LEVEL_SERVOING
| LOW_LEVEL_SERVOING
| BYPASS_SERVOING.

(** [Base_pb2.ActionType], some of its variants *)
Inductive ActionType : Set :=
| UNSPECIFIED_ACTION
| REACH_JOINT_ANGLES
| REACH_POSE
| SEND_GRIPPER_CMD.

(** [Base_pb2.GripperMode] *)
Inductive GripperMode : Set :=
| UNSPECIFIED_GRIPPER_MODE
| GRIPPER_FORCE
| GRIPPER_SPEED
| GRIPPER_POSITION.

Record ActionHandle : Set := { identifier : N }.

#[global] Instance ActionHandle_eq_dec : EqDecision ActionHandle.
Proof. solve_decision. Defined.

(** [Base_pb2.Pose] / the target pose of a [reach_pose] action. *)
Record Pose : Set := {
  x : float; y : float; z : float;
  theta_x : float; theta_y : float; theta_z : float
}.

(** The [action_parameters] of an action: unset, joint angles to reach,
    or [reach_pose.target_pose]. *)
Inductive ActionParameters : Set :=
| no_parameters
| reach_joint_angles (joint_angles : list float)
| reach_pose (target_pose : Pose).

(** [Base_pb2.Action] *)
Record Action : Set := {
  name : string;
  application_data : string;
  handle : ActionHandle;
  action_parameters : ActionParameters
}.

(** [feedback.base] of [BaseCyclic_pb2.Feedback]: the measured tool pose. *)
Record Feedback : Set := {
  tool_pose_x : float; tool_pose_y : float; tool_pose_z : float;
  tool_pose_theta_x : float; tool_pose_theta_y : float;
  tool_pose_theta_z : float
}.

Record ActionNotification : Set := { action_event : ActionEvent }.

Record Finger : Set := { finger_identifier : N; value : float }.

(** [Base_pb2.GripperCommand]: [gripper.finger] is the finger list. *)
Record GripperCommand : Set := {
  mode : GripperMode;
  gripper_finger : list Finger
}.

Record GripperRequest : Set := { request_mode : GripperMode }.

(** The answer of [GetMeasuredGripperMovement]. *)
Record Gripper : Set := { finger : list Finger }.

(** The handle [OnNotificationActionTopic] returns. *)
Abbreviation NotificationHandle := nat (only parsing).

(** A reference to a [threading.Event] object of the Python heap. *)
Abbreviation EventRef := nat (only parsing).

(** The flags of the [threading.Event] objects created so far: the
    part of the Python heap that the program and its callbacks share. *)
Abbreviation Heap := (list bool) (only parsing).

(** A notification callback: a closure that is handed a notification
    and acts on the objects it has captured. *)
Definition Callback : Set := ActionNotification -> Heap -> Heap.

(** The requests sent over the link, with their arguments. *)
Inductive Rpc : Set :=
| SetServoingMode (m : ServoingMode)
| ReadAllActions (t : ActionType)
| OnNotificationActionTopic
| ExecuteActionFromReference (h : ActionHandle)
| ExecuteAction (a : Action)
| Unsubscribe (h : NotificationHandle)
| RefreshFeedback
| SendGripperCommand (c : GripperCommand)
| GetMeasuredGripperMovement (q : GripperRequest).

(** A notification the device pushes while the program waits: [arrival]
    is the time, in milliseconds after the wait began, at which the
    delivery thread hands it to the subscribed callbacks (zero or less:
    it was delivered between the subscription and the wait). *)
Record Delivery : Set := {
  arrival : Z;
  notification : ActionNotification
}.

(** The device behind the router. It is deterministic: what it answers
    depends on how many requests it has received so far.
    - [transport_fails n]: request number [n] raises a transport error;
    - [stored_actions t]: the stored actions of type [t];
    - [feedback n]: the cyclic feedback answered to request number [n];
    - [measured n]: the gripper measurement answered to request [n];
    - [notifications n]: the notifications pushed, in order of arrival,
      during a wait that begins after [n] requests. *)
Record Router : Type := {
  transport_fails : nat -> bool;
  stored_actions : ActionType -> list Action;
  feedback : nat -> Feedback;
  measured : nat -> Gripper;
  notifications : nat -> list Delivery
}.

(** The state of a run: the requests sent so far (the latest last), the
    flags of the [threading.Event] objects created so far, and the
    callbacks subscribed to the action topic. *)
Record World : Type := {
  rpc_log : list Rpc;
  events : Heap;
  subscribers : list (NotificationHandle * Callback)
}.

Definition boot : World :=
  {| rpc_log := []; events := []; subscribers := [] |}.

Inductive Outcome (A : Type) : Type :=
| Returned (a : A)
| Raised
| Running.
Arguments Returned {A} a.
Arguments Raised {A}.
Arguments Running {A}.

(** A computation returns a value, raises a transport error, or is
    still running when its loop budget is used up; the world it leaves
    is kept in all three cases. *)
Definition M (A : Type) : Type := World -> Outcome A * World.

Definition ret {A} (a : A) : M A := fun w => (Returned a, w).

Definition bind {A B} (m : M A) (k : A -> M B) : M B :=
  fun w =>
    match m w with
    | (Returned a, w') => k a w'
    | (Raised, w') => (Raised, w')
    | (Running, w') => (Running, w')
    end.

Definition still_running {A} : M A := fun w => (Running, w).

Declare Scope py_scope.
Delimit Scope py_scope with py.
Notation "'let*' x ':=' m 'in' k" := (bind m (fun x => k))
  (at level 10, x name, m at level 100, k at level 200) : py_scope.

Definition sent (c : Rpc) (w : World) : World :=
  {| rpc_log := rpc_log w ++ [c];
     events := events w;
     subscribers := subscribers w |}.

(** Every request is logged, then answered or failed by the device. *)
Definition call (r : Router) (c : Rpc) : M nat :=
  fun w =>
    let n := length (rpc_log w) in
    if transport_fails r n then (Raised, sent c w)
    else (Returned n, sent c w).

Open Scope py_scope.

(** The methods of [BaseClient] the examples call. *)
Module Base.

Definition SetServoingMode (base : Router) (m : ServoingMode) : M unit :=
  let* _ := call base (Kortex.SetServoingMode m) in ret tt.

Definition ReadAllActions (base : Router) (t : ActionType)
  : M (list Action) :=
  let* _ := call base (Kortex.ReadAllActions t) in
  ret (stored_actions base t).

(** The handle of a subscription is the number of the request that
    made it, so that no two subscriptions share a handle. *)
Definition OnNotificationActionTopic (base : Router) (cb : Callback)
  : M NotificationHandle :=
  let* n := call base Kortex.OnNotificationActionTopic in
  fun w =>
    (Returned n,
     {| rpc_log := rpc_log w;
        events := events w;
        subscribers := subscribers w ++ [(n, cb)] |}).

Definition ExecuteActionFromReference (base : Router) (h : ActionHandle)
  : M unit :=
  let* _ := call base (Kortex.ExecuteActionFromReference h) in ret tt.

Definition ExecuteAction (base : Router) (a : Action) : M unit :=
  let* _ := call base (Kortex.ExecuteAction a) in ret tt.

Definition Unsubscribe (base : Router) (h : NotificationHandle) : M unit :=
  let* _ := call base (Kortex.Unsubscribe h) in
  fun w =>
    (Returned tt,
     {| rpc_log := rpc_log w;
        events := events w;
        subscribers :=
          filter (fun s => fst s <> h) (subscribers w) |}).

Definition SendGripperCommand (base : Router) (c : GripperCommand)
  : M unit :=
  let* _ := call base (Kortex.SendGripperCommand c) in ret tt.

Definition GetMeasuredGripperMovement (base : Router) (q : GripperRequest)
  : M Gripper :=
  let* n := call base (Kortex.GetMeasuredGripperMovement q) in
  ret (measured base n).

End Base.

(** The method of [BaseCyclicClient] the examples call. *)
Module BaseCyclic.

Definition RefreshFeedback (base_cyclic : Router) : M Feedback :=
  let* n := call base_cyclic Kortex.RefreshFeedback in
  ret (feedback base_cyclic n).

End BaseCyclic.

End Kortex.

(** ** Python's [threading.Event] and [time.sleep] *)

Module threading.
Import Kortex.
Open Scope py_scope.

(** [threading.Event()]: a new object, its flag cleared. *)
Definition Event : M EventRef :=
  fun w =>
    (Returned (length (events w)),
     {| rpc_log := rpc_log w;
        events := events w ++ [false];
        subscribers := subscribers w |}).

(** [e.set()] *)
Definition set (e : EventRef) (h : Heap) : Heap := <[e := true]> h.

(** [e.is_set()] *)
Definition is_set (e : EventRef) (h : Heap) : bool :=
  match h !! e with
  | Some b => b
  | None => false
  end.

(** The delivery thread hands a notification to every subscribed
    callback. *)
Definition deliver (n : ActionNotification) (w : World) : World :=
  {| rpc_log := rpc_log w;
     events := foldl (fun h s => snd s n h) (events w) (subscribers w);
     subscribers := subscribers w |}.

(** What happens while the calling thread is blocked in [e.wait]: the
    wait is over as soon as the flag is set; until then the
    notifications that arrive before the deadline are delivered, in
    order; one that arrives later is not seen by this wait. *)
Fixpoint wait_until (e : EventRef) (deadline : Z)
    (pending : list Delivery) (w : World) : bool * World :=
  if is_set e (events w) then (true, w)
  else
    match pending with
    | [] => (false, w)
    | d :: rest =>
        if decide (arrival d < deadline)%Z
        then wait_until e deadline rest (deliver (notification d) w)
        else wait_until e deadline rest w
    end.

(** [e.wait(timeout)], [timeout] in seconds: true if and only if the
    flag is set before the timeout elapses. *)
Definition wait (r : Router) (e : EventRef) (timeout : Z) : M bool :=
  fun w =>
    let pending := notifications r (length (rpc_log w)) in
    let '(finished, w') := wait_until e (1000 * timeout) pending w in
    (Returned finished, w').

End threading.

Module time.
Import Kortex.

(** [time.sleep(seconds)] only lets time pass. *)
Definition sleep (seconds : Z) : M unit := ret tt.

End time.

(** ** 106-Gripper_command/02-gripper_grabPen.py *)

Module GripperCommandExample.
Import Kortex.
Open Scope py_scope.

(** The command message of the example: it has one finger, added once
    and then updated in place; a request carries the message as it is
    when it is sent. *)
Definition gripper_command (m : GripperMode) (finger_value : float)
  : GripperCommand :=
  {| mode := m;
     gripper_finger :=
       [ {| finger_identifier := 0; value := finger_value |} ] |}.

(** [while position > 0.0:] with its body. Each iteration takes one unit
    of the loop budget [fuel]. *)
Fixpoint position_ramp (base : Router) (fuel : nat) (position : float)
  : M unit :=
  if (0.0 <? position)%float then
    match fuel with
    | O => still_running
    | S fuel' =>
        let* _ :=
          Base.SendGripperCommand base
            (gripper_command GRIPPER_POSITION position) in
        let position := (position - 0.2)%float in
        let* _ := time.sleep 1 in
        position_ramp base fuel' position
    end
  else ret tt.

(** [while True:] with its body: the two [break]s return. *)
Fixpoint poll_until_closed (base : Router) (fuel : nat)
    (gripper_request : GripperRequest) : M unit :=
  match fuel with
  | O => still_running
  | S fuel' =>
      let* gripper_measure :=
        Base.GetMeasuredGripperMovement base gripper_request in
      match finger gripper_measure with
      | finger0 :: _ =>
          if (0.86 <? value finger0)%float then ret tt
          else poll_until_closed base fuel' gripper_request
      | [] => ret tt
      end
  end.

Definition ExampleSendGripperCommands (base : Router) (fuel : nat)
  : M unit :=
  let position := 1.00%float in
  let* _ := position_ramp base fuel position in
  let* _ :=
    Base.SendGripperCommand base (gripper_command GRIPPER_SPEED (-0.1)) in
  let gripper_request := {| request_mode := GRIPPER_POSITION |} in
  poll_until_closed base fuel gripper_request.

End GripperCommandExample.

(** ** tools/drawing.py *)

Module Drawing.
Import Kortex.
Open Scope py_scope.

(** Maximum allowed waiting time during actions (in seconds) *)
Definition TIMEOUT_DURATION : Z := 20.

(** The closure [check] that [check_for_end_or_abort(e)] returns. *)
Definition check_for_end_or_abort (e : EventRef) : Callback :=
  fun notification heap =>
    if bool_decide (action_event notification = ACTION_END)
       || bool_decide (action_event notification = ACTION_ABORT)
    then threading.set e heap
    else heap.

(** [action_handle = None], then [for action in action_list.action_list:]
    with its body: the handle of the last action named "Home". *)
Definition home_handle (action_list : list Action) : option ActionHandle :=
  foldl (fun action_handle action =>
           if String.eqb (name action) "Home"
           then Some (handle action)
           else action_handle)
        None action_list.

Definition example_move_to_home_position (base : Router) : M bool :=
  let base_servo_mode := SINGLE_LEVEL_SERVOING in
  let* _ := Base.SetServoingMode base base_servo_mode in
  let action_type := REACH_JOINT_ANGLES in
  let* action_list := Base.ReadAllActions base action_type in
  let action_handle := home_handle action_list in
  match action_handle with
  | None => ret false
  | Some action_handle =>
      let* e := threading.Event in
      let* notification_handle :=
        Base.OnNotificationActionTopic base (check_for_end_or_abort e) in
      let* _ := Base.ExecuteActionFromReference base action_handle in
      let* finished := threading.wait base e TIMEOUT_DURATION in
      let* _ := Base.Unsubscribe base notification_handle in
      ret finished
  end.

Definition example_cartesian_action_movement
    (base base_cyclic : Router) (pose_x pose_y pose_z : float) : M bool :=
  let* feedback := BaseCyclic.RefreshFeedback base_cyclic in
  let cartesian_pose :=
    {| x := pose_x;
       y := pose_y;
       z := pose_z;
       theta_x := tool_pose_theta_x feedback;
       theta_y := tool_pose_theta_y feedback;
       theta_z := tool_pose_theta_z feedback |} in
  let action :=
    {| name := "Example Cartesian action movement";
       application_data := "";
       handle := {| identifier := 0 |};
       action_parameters := reach_pose cartesian_pose |} in
  let* e := threading.Event in
  let* notification_handle :=
    Base.OnNotificationActionTopic base (check_for_end_or_abort e) in
  let* _ := Base.ExecuteAction base action in
  let* finished := threading.wait base e TIMEOUT_DURATION in
  let* _ := Base.Unsubscribe base notification_handle in
  ret finished.

(** [for pose_x, pose_y in points:] with its body. *)
Fixpoint for_points (base base_cyclic : Router) (pose_z : float)
    (points : list (float * float)) (success : bool) : M bool :=
  match points with
  | [] => ret success
  | (pose_x, pose_y) :: points' =>
      let* finished :=
        example_cartesian_action_movement
          base base_cyclic pose_x pose_y pose_z in
      let success := success && finished in
      for_points base base_cyclic pose_z points' success
  end.

(** The four vertices of the rectangle. *)
Definition points (feedback : Feedback) : list (float * float) :=
  [ ((tool_pose_x feedback + 0.05)%float, tool_pose_y feedback);
    ((tool_pose_x feedback + 0.05)%float,
     (tool_pose_y feedback + 0.05)%float);
    ((tool_pose_x feedback - 0.05)%float,
     (tool_pose_y feedback + 0.05)%float);
    ((tool_pose_x feedback - 0.05)%float,
     (tool_pose_y feedback - 0.05)%float) ].

(** The initial point of the drawing. *)
Definition drawing_default_pose (feedback : Feedback)
  : float * float * float :=
  ((tool_pose_x feedback + 0.2)%float,
   (tool_pose_y feedback + 0.1)%float,
   (tool_pose_z feedback - 0.37)%float).

Definition main (router : Router) : M Z :=
  let base := router in
  let base_cyclic := router in
  let success := true in
  let* feedback := BaseCyclic.RefreshFeedback base_cyclic in
  let* finished := example_move_to_home_position base in
  let success := success && finished in
  let* feedback := BaseCyclic.RefreshFeedback base_cyclic in
  let drawing_default_pose := drawing_default_pose feedback in
  let* finished :=
    example_cartesian_action_movement base base_cyclic
      (drawing_default_pose.1.1) (drawing_default_pose.1.2)
      (drawing_default_pose.2) in
  let success := success && finished in
  let* feedback := BaseCyclic.RefreshFeedback base_cyclic in
  let points := points feedback in
  let pose_z := tool_pose_z feedback in
  let* success := for_points base base_cyclic pose_z points success in
  ret (if success then 0 else 1)%Z.

(** [exit(main())]: the status the process ends with. An exception
    that nothing catches ends the interpreter with status 1. *)
Definition exit_status (result : Outcome Z * World) : option Z :=
  match result.1 with
  | Returned code => Some code
  | Raised => Some 1%Z
  | Running => None
  end.

End Drawing.

(** ** 02-gripper_grabPen.py: the class and [main] *)

Module GripperGrabPen.
Import Kortex.
Open Scope py_scope.

(** An instance of [GripperCommandExample]. *)
Record Example : Type := {
  proportional_gain : float;
  router : Router;
  base : Router
}.

(** [GripperCommandExample.__init__]: the base client is made on the
    router that is passed in. *)
Definition __init__ (router : Router) (proportional_gain : float) : Example :=
  {| proportional_gain := proportional_gain;
     router := router;
     base := router |}.

(** [main], from the connection on; [proportional_gain] takes its
    default. The loops of the example share the budget [fuel]. *)
Definition main (router : Router) (fuel : nat) : M unit :=
  let example := __init__ router 2.0 in
  GripperCommandExample.ExampleSendGripperCommands (base example) fuel.

(** [main()] at the end of the script: the interpreter ends with
    status 0 when [main] returns and with status 1 when an exception
    leaves it. *)
Definition exit_status (result : Outcome unit * World) : option Z :=
  match result.1 with
  | Returned _ => Some 0%Z
  | Raised => Some 1%Z
  | Running => None
  end.

End GripperGrabPen.

(** ** Observations on a run *)

Module Observe.
Import Kortex GripperCommandExample Drawing.

(** The link never fails a request. *)
Definition healthy (r : Router) : Prop :=
  forall n, transport_fails r n = false.

(** The requests a computation adds to the log of [w]. *)
Definition issued {A} (m : M A) (w : World) : list Rpc :=
  drop (length (rpc_log w)) (rpc_log (m w).2).

(** The finger values of the position commands among some requests. *)
Definition position_commands (l : list Rpc) : list float :=
  flat_map
    (fun c =>
       match c with
       | SendGripperCommand {| mode := GRIPPER_POSITION;
                               gripper_finger := fs |} => map value fs
       | _ => []
       end) l.

(** The world once the requests [l] have been logged. *)
Definition after (l : list Rpc) (w : World) : World :=
  {| rpc_log := rpc_log w ++ l;
     events := events w;
     subscribers := subscribers w |}.

(** [n] measurement requests in a row. *)
Definition polls (q : GripperRequest) (n : nat) : list Rpc :=
  replicate n (GetMeasuredGripperMovement q).

(** The measurement answered to the [k]-th request after those of [w]. *)
Definition measurement (base : Router) (w : World) (k : nat) : Gripper :=
  measured base (length (rpc_log w) + k).

(** A device that answers the measurements of [stream] in turn, one
    finger each, and no finger once the stream is over; it stores no
    action and pushes no notification. *)
Definition scripted (stream : list float) : Router :=
  {| transport_fails := fun _ => false;
     stored_actions := fun _ => [];
     feedback := fun _ => Build_Feedback 0 0 0 0 0 0;
     measured := fun n =>
       {| finger :=
            match stream !! n with
            | Some v => [ {| finger_identifier := 0; value := v |} ]
            | None => []
            end |};
     notifications := fun _ => [] |}.

(** [n / d] rounded to the nearest integer, a tie to the even one. *)
Definition round_half_even (n d : Z) : Z :=
  let q := (n / d)%Z in
  let r := (n mod d)%Z in
  if (2 * r <? d)%Z then q
  else if (d <? 2 * r)%Z then (q + 1)%Z
  else if Z.even q then q else (q + 1)%Z.

(** The number of hundredths that ["{:0.2f}".format(v)] displays: the
    exact value of [v], rounded to two decimals. *)
Definition hundredths (v : float) : option Z :=
  match Prim2SF v with
  | S754_zero _ => Some 0%Z
  | S754_finite s m e =>
      let n := (100 * Z.pos m)%Z in
      let q := if (0 <=? e)%Z then (n * 2 ^ e)%Z
               else round_half_even n (2 ^ (- e)) in
      Some (if s then (- q)%Z else q)
  | _ => None
  end.


(** The positions of the ramp, as Python prints their [repr]. *)
Definition ramp : list float :=
  [1.0; 0.8; 0.6000000000000001; 0.4000000000000001;
   0.20000000000000007; 5.551115123125783e-17]%float.

Definition ramp_requests : list Rpc :=
  map (fun p => SendGripperCommand (gripper_command GRIPPER_POSITION p))
      ramp.

(** The measurement tells the loop to poll again: it has a finger and
    the first one is not above the threshold. *)
Definition below (g : Gripper) : Prop :=
  exists finger0 rest,
    finger g = finger0 :: rest /\ (0.86 <? value finger0)%float = false.

(** The measurement ends the loop: no finger, or a first finger above
    the threshold. *)
Definition stops (g : Gripper) : Prop :=
  finger g = []
  \/ exists finger0 rest,
       finger g = finger0 :: rest /\ (0.86 <? value finger0)%float = true.

Definition terminal (n : ActionNotification) : Prop :=
  action_event n = ACTION_END \/ action_event n = ACTION_ABORT.

Definition in_time (d : Delivery) : Prop :=
  (arrival d < 1000 * TIMEOUT_DURATION)%Z.

(** Some notification of [pending] arrives in time and is terminal. *)
Definition signalled (pending : list Delivery) : bool :=
  existsb
    (fun d =>
       bool_decide (in_time d)
       && (bool_decide (action_event (notification d) = ACTION_END)
           || bool_decide (action_event (notification d) = ACTION_ABORT)))
    pending.

(** The action [example_cartesian_action_movement] builds. *)
Definition cartesian_action (pose_x pose_y pose_z : float) (fb : Feedback)
  : Action :=
  {| name := "Example Cartesian action movement";
     application_data := "";
     handle := {| identifier := 0 |};
     action_parameters :=
       reach_pose
         {| x := pose_x; y := pose_y; z := pose_z;
            theta_x := tool_pose_theta_x fb;
            theta_y := tool_pose_theta_y fb;
            theta_z := tool_pose_theta_z fb |} |}.

(** The requests of a Cartesian dispatch that runs to its end, made
    from request number [n] on. *)
Definition cartesian_requests (bc : Router) (n : nat)
    (pose_x pose_y pose_z : float) : list Rpc :=
  [ RefreshFeedback;
    OnNotificationActionTopic;
    ExecuteAction (cartesian_action pose_x pose_y pose_z (feedback bc n));
    Unsubscribe (S n) ].

Definition home_requests (hd : ActionHandle) (n : nat) : list Rpc :=
  [ SetServoingMode SINGLE_LEVEL_SERVOING;
    ReadAllActions REACH_JOINT_ANGLES;
    OnNotificationActionTopic;
    ExecuteActionFromReference hd;
    Unsubscribe (n + 2) ].

(** [m], run in [w], returns [a] and leaves [w']. *)
Definition returns {A} (m : M A) (w : World) (a : A) (w' : World) : Prop :=
  m w = (Returned a, w').

(** The vertex moves, run in order from [w], return [results] and
    leave [w']. *)
Inductive vertices_run (base bc : Router) (pose_z : float)
  : list (float * float) -> World -> list bool -> World -> Prop :=
| vertices_done w : vertices_run base bc pose_z [] w [] w
| vertices_step pose_x pose_y ps w finished w1 results w' :
    returns (example_cartesian_action_movement base bc pose_x pose_y pose_z)
            w finished w1 ->
    vertices_run base bc pose_z ps w1 results w' ->
    vertices_run base bc pose_z ((pose_x, pose_y) :: ps) w
                 (finished :: results) w'.

(** The six steps of [main], run in order from [w] with the feedback
    reads between them, all return: the home move returns [home], the
    move to the initial point [initial], the vertex moves [vertices]. *)
Definition sequence_run (router : Router) (w : World)
    (home initial : bool) (vertices : list bool) (w' : World) : Prop :=
  exists fb0 w1 w2 fb1 w3 w4 fb2 w5,
    returns (BaseCyclic.RefreshFeedback router) w fb0 w1
    /\ returns (example_move_to_home_position router) w1 home w2
    /\ returns (BaseCyclic.RefreshFeedback router) w2 fb1 w3
    /\ returns (example_cartesian_action_movement router router
                  (drawing_default_pose fb1).1.1
                  (drawing_default_pose fb1).1.2
                  (drawing_default_pose fb1).2) w3 initial w4
    /\ returns (BaseCyclic.RefreshFeedback router) w4 fb2 w5
    /\ vertices_run router router (tool_pose_z fb2) (points fb2)
                    w5 vertices w'.

(** The request asks the device to execute an action. *)
Definition is_dispatch (c : Rpc) : bool :=
  match c with
  | ExecuteAction _ | ExecuteActionFromReference _ => true
  | _ => false
  end.

(** The number of action requests among some requests. *)
Definition dispatches (l : list Rpc) : nat :=
  length (List.filter is_dispatch l).

(** The number of requests among [l] that unsubscribe the handle [h]. *)
Definition unsubscribes (h : nat) (l : list Rpc) : nat :=
  length
    (List.filter
       (fun c => match c with
                 | Unsubscribe h' => bool_decide (h' = h)
                 | _ => false
                 end) l).

(** A computation with no loop budget is never left running. *)
Definition halts {A} (m : M A) : Prop := forall w, (m w).1 <> Running.

(** A stored action named "Home". *)
Definition home_action : Action :=
  {| name := "Home";
     application_data := "";
     handle := {| identifier := 2 |};
     action_parameters := reach_joint_angles [] |}.

(** A device on a healthy link that stores "Home" and never pushes a
    notification: every wait times out. *)
Definition silent : Router :=
  {| transport_fails := fun _ => false;
     stored_actions := fun _ => [home_action];
     feedback := fun _ => Build_Feedback 0.4 0.1 0.5 90 0 90;
     measured := fun _ => {| finger := [] |};
     notifications := fun _ => [] |}.

(** A device on a healthy link that stores "Home" and reports, during
    every wait, the start of the action and then its end, in time. *)
Definition prompt : Router :=
  {| transport_fails := fun _ => false;
     stored_actions := fun _ => [home_action];
     feedback := fun _ => Build_Feedback 0.4 0.1 0.5 90 0 90;
     measured := fun _ => {| finger := [] |};
     notifications := fun _ =>
       [ {| arrival := 5;
            notification := {| action_event := ACTION_START |} |};
         {| arrival := 1500;
            notification := {| action_event := ACTION_END |} |} ] |}.

(** As [silent], on a link that fails request number [k]. *)
Definition failing (k : nat) : Router :=
  {| transport_fails := fun n => bool_decide (n = k);
     stored_actions := stored_actions silent;
     feedback := feedback silent;
     measured := measured silent;
     notifications := notifications silent |}.

End Observe.

(** ** The requests of whole runs *)

Module Trace.
Import Kortex GripperCommandExample Drawing Observe.

(** The requests of the loop over the points run to its end, made from
    request number [n] on: four for each point. *)
Fixpoint vertex_requests (bc : Router) (n : nat) (pose_z : float)
    (ps : list (float * float)) : list Rpc :=
  match ps with
  | [] => []
  | (pose_x, pose_y) :: ps' =>
      cartesian_requests bc n pose_x pose_y pose_z
      ++ vertex_requests bc (n + 4) pose_z ps'
  end.

(** What the waits of that loop see: the wait for a point begins three
    requests after the move to it began. *)
Fixpoint vertex_results (base : Router) (n : nat)
    (ps : list (float * float)) : list bool :=
  match ps with
  | [] => []
  | _ :: ps' =>
      signalled (notifications base (n + 3)) :: vertex_results base (n + 4) ps'
  end.

(** The requests of [main] run to its end on a device that stores
    "Home" under [hd], made from request number [n] on. *)
Definition main_requests (router : Router) (hd : ActionHandle) (n : nat)
  : list Rpc :=
  let fb1 := feedback router (n + 6) in
  let fb2 := feedback router (n + 11) in
  [RefreshFeedback]
  ++ home_requests hd (n + 1)
  ++ [RefreshFeedback]
  ++ cartesian_requests router (n + 7)
       (drawing_default_pose fb1).1.1 (drawing_default_pose fb1).1.2
       (drawing_default_pose fb1).2
  ++ [RefreshFeedback]
  ++ vertex_requests router (n + 12) (tool_pose_z fb2) (points fb2).

(** What the six waits of that run see. *)
Definition main_results (router : Router) (n : nat) : list bool :=
  signalled (notifications router (n + 5))
  :: signalled (notifications router (n + 10))
  :: vertex_results router (n + 12) (points (feedback router (n + 11))).

(** The positions of the [reach_pose] actions requested, in order. *)
Definition executed_positions (l : list Rpc) : list (float * float * float) :=
  flat_map
    (fun c =>
       match c with
       | ExecuteAction a =>
           match action_parameters a with
           | reach_pose p => [(x p, y p, z p)]
           | _ => []
           end
       | _ => []
       end) l.

(** The requests of [main] run to its end on a device that stores no
    "Home", made from request number [n] on. *)
Definition main_requests_no_home (router : Router) (n : nat) : list Rpc :=
  let fb1 := feedback router (n + 3) in
  let fb2 := feedback router (n + 8) in
  [ RefreshFeedback;
    SetServoingMode SINGLE_LEVEL_SERVOING;
    ReadAllActions REACH_JOINT_ANGLES;
    RefreshFeedback ]
  ++ cartesian_requests router (n + 4)
       (drawing_default_pose fb1).1.1 (drawing_default_pose fb1).1.2
       (drawing_default_pose fb1).2
  ++ [RefreshFeedback]
  ++ vertex_requests router (n + 9) (tool_pose_z fb2) (points fb2).

(** A device on a healthy link whose gripper always reports [v] for its
    one finger. *)
Definition steady (v : float) : Router :=
  {| transport_fails := fun _ => false;
     stored_actions := fun _ => [];
     feedback := fun _ => Build_Feedback 0 0 0 0 0 0;
     measured := fun _ =>
       {| finger := [ {| finger_identifier := 0; value := v |} ] |};
     notifications := fun _ => [] |}.

(** The speed command that closes the gripper. *)
Definition speed_request : Rpc :=
  SendGripperCommand (gripper_command GRIPPER_SPEED (-0.1)).

(** [m] makes its requests one after the other and gives up at the first
    one that fails: in every run all requests but the last have been
    answered, and the run raises exactly when the last one failed. *)
Definition stops_at_failure (r : Router) {A} (m : M A) : Prop :=
  forall w,
    exists l,
      rpc_log (m w).2 = rpc_log w ++ l
      /\ (forall k, S k < length l ->
                    transport_fails r (length (rpc_log w) + k) = false)
      /\ match (m w).1 with
         | Raised =>
             exists k, length l = S k
                       /\ transport_fails r (length (rpc_log w) + k) = true
         | _ =>
             forall k, k < length l ->
                       transport_fails r (length (rpc_log w) + k) = false
         end.

End Trace.

(** ** The gripper sequencer *)

Module GripperProofs.
Import Kortex Observe GripperCommandExample.

Lemma after_after l1 l2 w : after l2 (after l1 w) = after (l1 ++ l2) w.
Proof. unfold after; simpl. by rewrite app_assoc. Qed.

Lemma after_nil w : after [] w = w.
Proof. destruct w; unfold after; simpl. by rewrite app_nil_r. Qed.

Lemma call_healthy r c w :
  healthy r -> call r c w = (Returned (length (rpc_log w)), after [c] w).
Proof. intros H. unfold call. by rewrite H. Qed.

Lemma SendGripperCommand_healthy r c w :
  healthy r ->
  Base.SendGripperCommand r c w
  = (Returned tt, after [SendGripperCommand c] w).
Proof.
  intros H. unfold Base.SendGripperCommand, bind.
  by rewrite call_healthy.
Qed.

Lemma GetMeasuredGripperMovement_healthy r q w :
  healthy r ->
  Base.GetMeasuredGripperMovement r q w
  = (Returned (measurement r w 0), after [GetMeasuredGripperMovement q] w).
Proof.
  intros H. unfold Base.GetMeasuredGripperMovement, bind, measurement.
  rewrite call_healthy by done. by rewrite Nat.add_0_r.
Qed.

(** One turn of the ramp loop on a healthy link. *)
Lemma position_ramp_turn base fuel position w :
  healthy base ->
  (0.0 <? position)%float = true ->
  position_ramp base (S fuel) position w
  = position_ramp base fuel (position - 0.2)%float
      (after [SendGripperCommand
                (gripper_command GRIPPER_POSITION position)] w).
Proof.
  intros H Hpos. simpl. rewrite Hpos. unfold bind at 1.
  by rewrite SendGripperCommand_healthy.
Qed.

Lemma position_ramp_exit base fuel position w :
  (0.0 <? position)%float = false ->
  position_ramp base fuel position w = (Returned tt, w).
Proof. intros Hpos. destruct fuel; simpl; by rewrite Hpos. Qed.

Lemma position_ramp_run base fuel w :
  healthy base ->
  6 <= fuel ->
  position_ramp base fuel 1.0 w = (Returned tt, after ramp_requests w).
Proof.
  intros H Hfuel.
  do 6 (destruct fuel as [|fuel]; [lia|]).
  do 6 (rewrite position_ramp_turn by (done || reflexivity)).
  rewrite position_ramp_exit by reflexivity.
  by rewrite !after_after.
Qed.

(** One turn of the polling loop on a healthy link. *)
Lemma poll_turn base fuel q w :
  healthy base ->
  poll_until_closed base (S fuel) q w
  = match finger (measurement base w 0) with
    | finger0 :: _ =>
        if (0.86 <? value finger0)%float
        then (Returned tt, after (polls q 1) w)
        else poll_until_closed base fuel q (after (polls q 1) w)
    | [] => (Returned tt, after (polls q 1) w)
    end.
Proof.
  intros H. simpl. unfold bind at 1.
  rewrite GetMeasuredGripperMovement_healthy by done.
  destruct (finger (measurement base w 0)) as [|f fs]; [done|].
  by destruct (0.86 <? value f)%float.
Qed.

Lemma measurement_after base q w n k :
  measurement base (after (polls q n) w) k = measurement base w (n + k).
Proof.
  unfold measurement, after, polls; simpl.
  rewrite length_app, length_replicate. f_equal; lia.
Qed.

Lemma below_or_stops g : below g \/ stops g.
Proof.
  unfold below, stops. destruct (finger g) as [|f fs]; [by right; left|].
  destruct (0.86 <? value f)%float eqn:E; [right; right|left]; eauto.
Qed.

Lemma below_not_stops g : below g -> stops g -> False.
Proof.
  intros (f & fs & E & Hf) [E'|(f' & fs' & E' & Hf')]; rewrite E in E';
    [done|]. injection E' as -> ->. congruence.
Qed.

(** While the answers are below the threshold the loop goes on. *)
Lemma poll_below base q n : forall fuel w,
  healthy base ->
  (forall k, k < n -> below (measurement base w k)) ->
  poll_until_closed base (n + fuel) q w
  = poll_until_closed base fuel q (after (polls q n) w).
Proof.
  induction n as [|n IH]; intros fuel w H Hbelow.
  - by rewrite after_nil.
  - replace (S n + fuel) with (S (n + fuel)) by lia.
    rewrite poll_turn by done.
    destruct (Hbelow 0) as (f & fs & -> & ->); [lia|].
    rewrite IH; [|done|].
    + by rewrite after_after.
    + intros k Hk. rewrite measurement_after. apply Hbelow. lia.
Qed.

Lemma poll_stop base q fuel w :
  healthy base ->
  stops (measurement base w 0) ->
  poll_until_closed base (S fuel) q w
  = (Returned tt, after (polls q 1) w).
Proof.
  intros H Hstop. rewrite poll_turn by done.
  destruct Hstop as [->|(f & fs & -> & ->)]; done.
Qed.

Lemma poll_stops_at base q n fuel w :
  healthy base ->
  (forall k, k < n -> below (measurement base w k)) ->
  stops (measurement base w n) ->
  n < fuel ->
  poll_until_closed base fuel q w
  = (Returned tt, after (polls q (S n)) w).
Proof.
  intros H Hbelow Hstop Hfuel.
  replace fuel with (n + S (fuel - S n)) by lia.
  rewrite poll_below by done.
  rewrite poll_stop; [|done|].
  - rewrite after_after. do 2 f_equal. unfold polls.
    by rewrite <- replicate_add, Nat.add_1_r.
  - rewrite measurement_after. by rewrite Nat.add_0_r.
Qed.

Lemma poll_running base q fuel w :
  healthy base ->
  (forall k, below (measurement base w k)) ->
  poll_until_closed base fuel q w = (Running, after (polls q fuel) w).
Proof.
  intros H Hbelow.
  replace fuel with (fuel + 0) at 1 by lia.
  by rewrite poll_below by auto.
Qed.

Lemma poll_returns_within base q fuel : forall w w',
  healthy base ->
  poll_until_closed base fuel q w = (Returned tt, w') ->
  exists n, n < fuel /\ stops (measurement base w n).
Proof.
  induction fuel as [|fuel IH]; intros w w' H Hrun; [done|].
  destruct (below_or_stops (measurement base w 0)) as [Hb|Hs].
  - rewrite poll_turn in Hrun by done.
    destruct Hb as (f & fs & Ef & Hf). rewrite Ef, Hf in Hrun.
    destruct (IH _ _ H Hrun) as (n & Hn & Hstop).
    rewrite measurement_after in Hstop.
    exists (1 + n). split; [lia|done].
  - exists 0. split; [lia|done].
Qed.

Lemma poll_returns_when_stopped base q n : forall w,
  healthy base ->
  stops (measurement base w n) ->
  exists w', poll_until_closed base (S n) q w = (Returned tt, w').
Proof.
  induction n as [|n IH]; intros w H Hstop.
  - rewrite poll_stop by done. eauto.
  - destruct (below_or_stops (measurement base w 0)) as [Hb|Hs].
    + rewrite poll_turn by done.
      destruct Hb as (f & fs & -> & ->).
      apply IH; [done|]. by rewrite measurement_after.
    + rewrite poll_stop by done. eauto.
Qed.

(** *** The claims on the gripper *)

(** C4, as stated, fails: the position commands of a run are not the
    five displayed 1.00, 0.80, 0.60, 0.40, 0.20 with none displayed
    0.00. Rounding leaves the position just above zero after five
    decrements, and a sixth command goes out. *)
Lemma ramp_is_not_five_commands :
  let sent :=
    position_commands
      (rpc_log (ExampleSendGripperCommands (scripted []) 10 boot).2) in
  ~ (map hundredths sent = [Some 100; Some 80; Some 60; Some 40; Some 20]%Z
     /\ Some 0%Z ∉ map hundredths sent).
Proof. intros sent [Hfive _]. vm_compute in Hfive. discriminate. Qed.

(** C4, amended: on a healthy link the ramp that starts at 1.0 returns
    after exactly six position commands: 1.0, 0.8, 0.6000000000000001,
    0.4000000000000001, 0.20000000000000007 and 5.551115123125783e-17,
    displayed 1.00, 0.80, 0.60, 0.40, 0.20 and 0.00; each value sent is
    strictly greater than 0.0. *)
Theorem position_ramp_six_commands base fuel w :
  healthy base ->
  6 <= fuel ->
  position_ramp base fuel 1.0 w = (Returned tt, after ramp_requests w)
  /\ position_commands ramp_requests = ramp
  /\ length ramp = 6
  /\ map hundredths ramp
     = [Some 100; Some 80; Some 60; Some 40; Some 20; Some 0]%Z
  /\ Forall (fun v => (0.0 <? v)%float = true) ramp.
Proof.
  intros H Hfuel. split; [by apply position_ramp_run|].
  repeat split; try reflexivity.
  unfold ramp. repeat constructor.
Qed.

Lemma position_ramp_six_commands_witness :
  position_ramp (scripted []) 6 1.0 boot
  = (Returned tt, after ramp_requests boot).
Proof.
  apply (position_ramp_six_commands (scripted []) 6 boot);
    [intros n; reflexivity | lia].
Defined.

(** C5: on a healthy link, when the first [n] measurements have a
    finger at or below 0.86 and the next one has a first finger strictly
    above 0.86, the polling loop returns after exactly [n + 1]
    measurement requests. For the stream 0.5, 0.7, 0.86, 0.90 it polls
    four times: 0.86 is not above the threshold. *)
Theorem poll_stops_at_first_above base q w n fuel :
  healthy base ->
  (forall k, k < n -> below (measurement base w k)) ->
  (exists finger0 rest,
      finger (measurement base w n) = finger0 :: rest
      /\ (0.86 <? value finger0)%float = true) ->
  n < fuel ->
  poll_until_closed base fuel q w = (Returned tt, after (polls q (S n)) w)
  /\ poll_until_closed (scripted [0.5; 0.7; 0.86; 0.90]%float) 10 q boot
     = (Returned tt, after (polls q 4) boot)
  /\ poll_until_closed (scripted [0.5; 0.7; 0.86]%float) 3 q boot
     = (Running, after (polls q 3) boot).
Proof.
  intros H Hbelow Habove Hfuel. split; [|split].
  - apply poll_stops_at; try done. by right.
  - destruct q as [[]]; reflexivity.
  - destruct q as [[]]; reflexivity.
Qed.

Lemma poll_stops_at_first_above_witness :
  poll_until_closed (scripted [0.5; 0.7; 0.86; 0.90]%float) 4
    {| request_mode := GRIPPER_POSITION |} boot
  = (Returned tt,
     after (polls {| request_mode := GRIPPER_POSITION |} 4) boot).
Proof.
  apply (poll_stops_at_first_above
           (scripted [0.5; 0.7; 0.86; 0.90]%float)
           {| request_mode := GRIPPER_POSITION |} boot 3 4).
  - intros n; reflexivity.
  - intros k Hk. unfold below.
    destruct k as [|[|[|k]]]; [| | |lia]; eexists _, _; split; reflexivity.
  - eexists _, _; split; reflexivity.
  - lia.
Defined.

(** C6: on a healthy link, when the first [n] measurements have a
    finger at or below 0.86 and the next one ([n = 0]: the very first)
    has no finger, the polling loop returns normally after exactly
    [n + 1] measurement requests: that poll is the last request. *)
Theorem poll_ends_on_empty_finger_list base q w n fuel :
  healthy base ->
  (forall k, k < n -> below (measurement base w k)) ->
  finger (measurement base w n) = [] ->
  n < fuel ->
  poll_until_closed base fuel q w = (Returned tt, after (polls q (S n)) w).
Proof.
  intros H Hbelow Hempty Hfuel. apply poll_stops_at; try done. by left.
Qed.

Lemma poll_ends_on_empty_finger_list_witness :
  poll_until_closed (scripted []) 1
    {| request_mode := GRIPPER_POSITION |} boot
  = (Returned tt,
     after (polls {| request_mode := GRIPPER_POSITION |} 1) boot).
Proof.
  apply (poll_ends_on_empty_finger_list
           (scripted []) {| request_mode := GRIPPER_POSITION |} boot 0 1).
  - intros n; reflexivity.
  - intros k Hk; lia.
  - reflexivity.
  - lia.
Defined.

(** C7: the polling loop has no bound of its own. On a healthy link
    some loop budget lets it return if and only if some measurement of
    the stream has no finger or a first finger strictly above 0.86; when
    no measurement does, every budget is used up in as many measurement
    requests, and the loop is still running. *)
Theorem poll_terminates_iff base q w :
  healthy base ->
  ((exists fuel w', poll_until_closed base fuel q w = (Returned tt, w'))
   <-> exists n, stops (measurement base w n))
  /\ ((forall n, ~ stops (measurement base w n)) ->
      forall fuel,
        poll_until_closed base fuel q w
        = (Running, after (polls q fuel) w)).
Proof.
  intros H. split; [split|].
  - intros (fuel & w' & Hrun).
    destruct (poll_returns_within _ _ _ _ _ H Hrun) as (n & _ & Hn).
    by exists n.
  - intros (n & Hn). exists (S n). by apply poll_returns_when_stopped.
  - intros Hnever fuel. apply poll_running; [done|].
    intros k. destruct (below_or_stops (measurement base w k)); [done|].
    by destruct (Hnever k).
Qed.

Lemma poll_terminates_iff_witness :
  exists fuel w',
    poll_until_closed (scripted [0.5; 0.9]%float) fuel
      {| request_mode := GRIPPER_POSITION |} boot
    = (Returned tt, w').
Proof.
  apply (proj1 (poll_terminates_iff (scripted [0.5; 0.9]%float)
                  {| request_mode := GRIPPER_POSITION |} boot
                  (fun n => eq_refl))).
  exists 1. right. eexists _, _. split; reflexivity.
Defined.

End GripperProofs.

(** ** The action dispatchers and the motion sequence *)

Module DrawingProofs.
Import Kortex Observe Drawing.
Import GripperProofs.

Lemma signalled_true pending :
  signalled pending = true
  <-> exists d, d ∈ pending /\ in_time d /\ terminal (notification d).
Proof.
  unfold signalled, terminal. rewrite existsb_exists. split.
  - intros (d & Hd & Hc). exists d.
    apply andb_true_iff in Hc as [Ht Hc]. apply orb_true_iff in Hc.
    rewrite !bool_decide_eq_true in Hc. rewrite bool_decide_eq_true in Ht.
    split; [by apply list_elem_of_In|done].
  - intros (d & Hd & Ht & Hc). exists d.
    split; [by apply list_elem_of_In|].
    apply andb_true_iff. rewrite orb_true_iff, !bool_decide_eq_true. done.
Qed.

Lemma is_set_last h b : threading.is_set (length h) (h ++ [b]) = b.
Proof.
  unfold threading.is_set. by rewrite list_lookup_middle.
Qed.

Lemma set_last h b : threading.set (length h) (h ++ [b]) = h ++ [true].
Proof.
  unfold threading.set.
  rewrite insert_app_r_alt by lia. by rewrite Nat.sub_diag.
Qed.

(** The wait of a dispatch whose callback is the only subscriber. *)
Lemma wait_until_own l h n pending : forall b,
  threading.wait_until (length h) (1000 * TIMEOUT_DURATION) pending
    {| rpc_log := l; events := h ++ [b];
       subscribers := [(n, check_for_end_or_abort (length h))] |}
  = (b || signalled pending,
     {| rpc_log := l; events := h ++ [b || signalled pending];
        subscribers := [(n, check_for_end_or_abort (length h))] |}).
Proof.
  induction pending as [|d pending IH]; intros b; simpl.
  - rewrite is_set_last. destruct b; by rewrite ?orb_false_r.
  - rewrite is_set_last. destruct b; [done|]. simpl.
    unfold in_time. destruct (decide (arrival d < 1000 * TIMEOUT_DURATION)%Z)
      as [Ht|Ht].
    + rewrite (bool_decide_eq_true_2 _ Ht). simpl.
      unfold threading.deliver; simpl.
      unfold check_for_end_or_abort at 1.
      destruct (bool_decide (action_event (notification d) = ACTION_END)
                || bool_decide (action_event (notification d) = ACTION_ABORT)).
      * rewrite set_last. by rewrite IH.
      * by rewrite IH.
    + rewrite (bool_decide_eq_false_2 _ Ht). simpl.
      by rewrite IH.
Qed.

(** A wait changes neither the log nor the subscriptions. *)
Lemma wait_until_frame e deadline pending : forall w,
  rpc_log (threading.wait_until e deadline pending w).2 = rpc_log w
  /\ subscribers (threading.wait_until e deadline pending w).2
     = subscribers w.
Proof.
  induction pending as [|d pending IH]; intros w; simpl.
  - by destruct (threading.is_set e (events w)).
  - destruct (threading.is_set e (events w)); [done|].
    destruct (decide (arrival d < deadline)%Z); [|apply IH].
    destruct (IH (threading.deliver (notification d) w)) as [-> ->]. done.
Qed.

Ltac run_requests H :=
  repeat (rewrite ?H; simpl; rewrite ?length_app; simpl).

Lemma cartesian_run base bc px py pz w :
  healthy base -> healthy bc -> subscribers w = [] ->
  let n := length (rpc_log w) in
  let finished := signalled (notifications base (n + 3)) in
  example_cartesian_action_movement base bc px py pz w
  = (Returned finished,
     {| rpc_log := rpc_log w ++ cartesian_requests bc n px py pz;
        events := events w ++ [finished];
        subscribers := [] |}).
Proof.
  intros Hb Hbc Hs n finished. destruct w as [l h s]; simpl in *. subst s.
  unfold example_cartesian_action_movement, BaseCyclic.RefreshFeedback,
    Base.OnNotificationActionTopic, Base.ExecuteAction, Base.Unsubscribe,
    threading.Event, threading.wait, bind, call, ret, sent.
  simpl.
  rewrite Hbc; simpl. rewrite Hb; simpl. rewrite Hb; simpl.
  rewrite wait_until_own; simpl. rewrite Hb; simpl.
  rewrite !length_app; simpl.
  rewrite filter_cons_False, filter_nil by (simpl; tauto).
  rewrite <- !app_assoc; simpl.
  unfold finished, n, cartesian_requests, cartesian_action.
  replace (length l + 1 + 1 + 1) with (length l + 3) by lia.
  replace (length l + 1) with (S (length l)) by lia.
  done.
Qed.

Lemma home_run base hd w :
  healthy base -> subscribers w = [] ->
  home_handle (stored_actions base REACH_JOINT_ANGLES) = Some hd ->
  let n := length (rpc_log w) in
  let finished := signalled (notifications base (n + 4)) in
  example_move_to_home_position base w
  = (Returned finished,
     {| rpc_log := rpc_log w ++ home_requests hd n;
        events := events w ++ [finished];
        subscribers := [] |}).
Proof.
  intros Hb Hs Hh n finished. destruct w as [l h s]; simpl in *. subst s.
  unfold example_move_to_home_position, Base.SetServoingMode,
    Base.ReadAllActions, Base.OnNotificationActionTopic,
    Base.ExecuteActionFromReference, Base.Unsubscribe,
    threading.Event, threading.wait, bind, call, ret, sent.
  simpl.
  rewrite Hb; simpl. rewrite Hb; simpl. rewrite Hh; simpl.
  rewrite Hb; simpl. rewrite Hb; simpl.
  rewrite wait_until_own; simpl. rewrite Hb; simpl.
  rewrite !length_app; simpl.
  rewrite filter_cons_False, filter_nil by (simpl; tauto).
  rewrite <- !app_assoc; simpl.
  unfold finished, n, home_requests.
  replace (length l + 1 + 1 + 1 + 1) with (length l + 4) by lia.
  replace (length l + 1 + 1) with (length l + 2) by lia.
  done.
Qed.

Lemma home_handle_None_acc (l : list Action) : forall acc,
  foldl (fun action_handle action =>
           if String.eqb (name action) "Home"
           then Some (handle action)
           else action_handle) acc l = None
  <-> acc = None /\ forall a, a ∈ l -> name a <> "Home".
Proof.
  induction l as [|a l IH]; intros acc; simpl.
  - split; [intros ->; split; [done|]|by intros [-> _]].
    intros a Ha. by apply elem_of_nil in Ha.
  - rewrite IH. destruct (String.eqb (name a) "Home") eqn:E.
    + apply String.eqb_eq in E. split; [by intros [? _]|].
      intros [_ Hno]. destruct (Hno a); [left|done].
    + apply String.eqb_neq in E. split.
      * intros [-> Hno]. split; [done|].
        intros a' [->|Ha']%elem_of_cons; auto.
      * intros [-> Hno]. split; [done|].
        intros a' Ha'. apply Hno. by right.
Qed.

Lemma home_handle_None l :
  home_handle l = None <-> forall a, a ∈ l -> name a <> "Home".
Proof.
  unfold home_handle. rewrite home_handle_None_acc.
  split; [by intros [_ Hno]|by intros Hno].
Qed.

Lemma no_home_run base w :
  healthy base ->
  home_handle (stored_actions base REACH_JOINT_ANGLES) = None ->
  example_move_to_home_position base w
  = (Returned false,
     after [ SetServoingMode SINGLE_LEVEL_SERVOING;
             ReadAllActions REACH_JOINT_ANGLES ] w).
Proof.
  intros Hb Hh. destruct w as [l h s].
  unfold example_move_to_home_position, Base.SetServoingMode,
    Base.ReadAllActions, bind, call, ret, sent, after.
  simpl.
  rewrite Hb; simpl. rewrite Hb; simpl. rewrite Hh; simpl.
  by rewrite <- !app_assoc.
Qed.

Lemma wait_run r e timeout w :
  exists finished heap,
    threading.wait r e timeout w
    = (Returned finished,
       {| rpc_log := rpc_log w; events := heap;
          subscribers := subscribers w |}).
Proof.
  unfold threading.wait.
  destruct (wait_until_frame e (1000 * timeout)
              (notifications r (length (rpc_log w))) w) as [Hl Hs].
  destruct (threading.wait_until _ _ _ w) as [finished [l h s]];
    simpl in *; subst. eauto.
Qed.

Ltac run_wait :=
  match goal with
  | |- context [threading.wait ?r ?e ?t ?w] =>
      let finished := fresh "finished" in
      let heap := fresh "heap" in
      let E := fresh "E" in
      destruct (wait_run r e t w) as (finished & heap & E);
      rewrite E; clear E; simpl
  end.

Lemma issued_app {A} (m : M A) w l :
  rpc_log (m w).2 = rpc_log w ++ l -> issued m w = l.
Proof. unfold issued. intros ->. by rewrite drop_app_length. Qed.

(** How far a Cartesian dispatch gets, request by request. *)
Lemma cartesian_cases base bc px py pz w :
  let n := length (rpc_log w) in
  let reqs := cartesian_requests bc n px py pz in
  let res := example_cartesian_action_movement base bc px py pz w in
  if transport_fails bc n
  then res.1 = Raised /\ rpc_log res.2 = rpc_log w ++ take 1 reqs
  else if transport_fails base (S n)
  then res.1 = Raised /\ rpc_log res.2 = rpc_log w ++ take 2 reqs
  else if transport_fails base (n + 2)
  then res.1 = Raised /\ rpc_log res.2 = rpc_log w ++ take 3 reqs
       /\ S n ∈ map fst (subscribers res.2)
  else rpc_log res.2 = rpc_log w ++ reqs
       /\ (if transport_fails base (n + 3) then res.1 = Raised
           else exists finished, res.1 = Returned finished).
Proof.
  intros n reqs res. destruct w as [l h s]. subst n reqs res.
  unfold example_cartesian_action_movement, BaseCyclic.RefreshFeedback,
    Base.OnNotificationActionTopic, Base.ExecuteAction, Base.Unsubscribe,
    threading.Event, bind, call, ret, sent.
  simpl.
  destruct (transport_fails bc (length l)) eqn:E0; simpl; [done|].
  rewrite length_app; simpl.
  replace (length l + 1) with (S (length l)) by lia.
  destruct (transport_fails base (S (length l))) eqn:E1; simpl.
  { by rewrite <- app_assoc. }
  rewrite !length_app; simpl.
  replace (length l + 1 + 1) with (length l + 2) by lia.
  destruct (transport_fails base (length l + 2)) eqn:E2; simpl.
  { rewrite <- !app_assoc. split; [done|]. split; [done|].
    rewrite map_app; simpl. apply elem_of_app; right.
    by apply list_elem_of_singleton. }
  run_wait.
  rewrite !length_app; simpl.
  replace (length l + 1 + 1 + 1) with (length l + 3) by lia.
  destruct (transport_fails base (length l + 3)) eqn:E3; simpl;
    rewrite <- !app_assoc; simpl; eauto.
Qed.

(** How far a home dispatch gets, request by request. *)
Lemma home_cases base hd w :
  home_handle (stored_actions base REACH_JOINT_ANGLES) = Some hd ->
  let n := length (rpc_log w) in
  let reqs := home_requests hd n in
  let res := example_move_to_home_position base w in
  if transport_fails base n
  then res.1 = Raised /\ rpc_log res.2 = rpc_log w ++ take 1 reqs
  else if transport_fails base (S n)
  then res.1 = Raised /\ rpc_log res.2 = rpc_log w ++ take 2 reqs
  else if transport_fails base (n + 2)
  then res.1 = Raised /\ rpc_log res.2 = rpc_log w ++ take 3 reqs
  else if transport_fails base (n + 3)
  then res.1 = Raised /\ rpc_log res.2 = rpc_log w ++ take 4 reqs
       /\ n + 2 ∈ map fst (subscribers res.2)
  else rpc_log res.2 = rpc_log w ++ reqs
       /\ (if transport_fails base (n + 4) then res.1 = Raised
           else exists finished, res.1 = Returned finished).
Proof.
  intros Hh n reqs res. destruct w as [l h s]. subst n reqs res.
  unfold example_move_to_home_position, Base.SetServoingMode,
    Base.ReadAllActions, Base.OnNotificationActionTopic,
    Base.ExecuteActionFromReference, Base.Unsubscribe,
    threading.Event, bind, call, ret, sent.
  simpl.
  destruct (transport_fails base (length l)) eqn:E0; simpl; [done|].
  rewrite length_app; simpl.
  replace (length l + 1) with (S (length l)) by lia.
  destruct (transport_fails base (S (length l))) eqn:E1; simpl.
  { by rewrite <- app_assoc. }
  rewrite Hh; simpl.
  rewrite !length_app; simpl.
  replace (length l + 1 + 1) with (length l + 2) by lia.
  destruct (transport_fails base (length l + 2)) eqn:E2; simpl.
  { by rewrite <- !app_assoc. }
  rewrite !length_app; simpl.
  replace (length l + 1 + 1 + 1) with (length l + 3) by lia.
  destruct (transport_fails base (length l + 3)) eqn:E3; simpl.
  { rewrite <- !app_assoc. split; [done|]. split; [done|].
    rewrite map_app; simpl. apply elem_of_app; right.
    by apply list_elem_of_singleton. }
  run_wait.
  rewrite !length_app; simpl.
  replace (length l + 1 + 1 + 1 + 1) with (length l + 4) by lia.
  destruct (transport_fails base (length l + 4)) eqn:E4; simpl;
    rewrite <- !app_assoc; simpl; eauto.
Qed.

(** *** The claims on the dispatchers *)

(** C2: on a healthy link and with no other subscription outstanding,
    a Cartesian dispatch, and a home dispatch when a "Home" action is
    stored, return; they return true if and only if the device pushes,
    during the wait, a notification that arrives before
    [TIMEOUT_DURATION] seconds have elapsed and whose event is
    ACTION_END or ACTION_ABORT. The callback sets the event for these
    two variants alike and leaves the heap as it is for any other. *)
Theorem dispatch_completed_iff base bc px py pz hd w :
  healthy base -> healthy bc -> subscribers w = [] ->
  home_handle (stored_actions base REACH_JOINT_ANGLES) = Some hd ->
  let n := length (rpc_log w) in
  (exists finished w',
      example_cartesian_action_movement base bc px py pz w
      = (Returned finished, w')
      /\ (finished = true
          <-> exists d, d ∈ notifications base (n + 3)
                        /\ in_time d /\ terminal (notification d)))
  /\ (exists finished w',
         example_move_to_home_position base w = (Returned finished, w')
         /\ (finished = true
             <-> exists d, d ∈ notifications base (n + 4)
                           /\ in_time d /\ terminal (notification d)))
  /\ (forall e notification heap,
         terminal notification ->
         check_for_end_or_abort e notification heap
         = threading.set e heap)
  /\ (forall e notification heap,
         ~ terminal notification ->
         check_for_end_or_abort e notification heap = heap).
Proof.
  intros Hb Hbc Hs Hh n. repeat split.
  - eexists _, _. split; [by apply cartesian_run|].
    apply signalled_true.
  - eexists _, _. split; [by apply home_run|].
    apply signalled_true.
  - intros e nt heap Ht. unfold check_for_end_or_abort, terminal in *.
    destruct Ht as [-> | ->]; reflexivity.
  - intros e nt heap Ht. unfold check_for_end_or_abort, terminal in *.
    destruct (action_event nt); try reflexivity; exfalso; apply Ht; auto.
Qed.

(** C9: on a healthy link, when no stored joint-angle action is named
    "Home", the home dispatch returns false after the servoing-mode and
    the action-list requests alone: the events and the subscriptions
    are as before, and no action request is made. *)
Theorem no_home_returns_false base w :
  healthy base ->
  (forall a, a ∈ stored_actions base REACH_JOINT_ANGLES ->
             name a <> "Home") ->
  example_move_to_home_position base w
  = (Returned false,
     {| rpc_log := rpc_log w ++ [ SetServoingMode SINGLE_LEVEL_SERVOING;
                                  ReadAllActions REACH_JOINT_ANGLES ];
        events := events w;
        subscribers := subscribers w |}).
Proof.
  intros Hb Hno. apply no_home_run; [done|]. by apply home_handle_None.
Qed.

(** C10: every action request a Cartesian dispatch makes carries a
    [reach_pose] target whose position is the three arguments and whose
    orientation is that of the feedback read at the start of the call. *)
Theorem cartesian_action_pose base bc px py pz w a :
  ExecuteAction a
    ∈ issued (example_cartesian_action_movement base bc px py pz) w ->
  let fb := feedback bc (length (rpc_log w)) in
  action_parameters a
  = reach_pose
      {| x := px; y := py; z := pz;
         theta_x := tool_pose_theta_x fb;
         theta_y := tool_pose_theta_y fb;
         theta_z := tool_pose_theta_z fb |}.
Proof.
  intros Ha fb.
  assert (Hpre : exists k,
    issued (example_cartesian_action_movement base bc px py pz) w
    = take k (cartesian_requests bc (length (rpc_log w)) px py pz)).
  { pose proof (cartesian_cases base bc px py pz w) as Hc. simpl in Hc.
    destruct (transport_fails bc (length (rpc_log w))).
    { exists 1. apply issued_app, Hc. }
    destruct (transport_fails base (S (length (rpc_log w)))).
    { exists 2. apply issued_app, Hc. }
    destruct (transport_fails base (length (rpc_log w) + 2)).
    { exists 3. apply issued_app, Hc. }
    exists 4. apply issued_app, Hc. }
  destruct Hpre as [k Hk]. rewrite Hk in Ha.
  apply (subseteq_take k) in Ha. unfold cartesian_requests in Ha.
  repeat (apply elem_of_cons in Ha as [Ha|Ha]; [try discriminate|]).
  - by injection Ha as ->.
  - by apply elem_of_nil in Ha.
Qed.

(** *** The motion sequence *)

Lemma vertices_run_length base bc pose_z ps w results w' :
  vertices_run base bc pose_z ps w results w' ->
  length results = length ps.
Proof. induction 1; simpl; congruence. Qed.

Lemma for_points_run base bc pose_z ps w results w' :
  vertices_run base bc pose_z ps w results w' ->
  forall success,
    for_points base bc pose_z ps success w
    = (Returned (success && forallb id results), w').
Proof.
  induction 1 as [w|px py ps w finished w1 results w' Hstep _ IH];
    intros success; simpl.
  - by rewrite andb_true_r.
  - unfold bind. rewrite Hstep. rewrite IH. by rewrite andb_assoc.
Qed.

Lemma for_points_inv base bc pose_z ps : forall success w r w',
  for_points base bc pose_z ps success w = (Returned r, w') ->
  exists results,
    vertices_run base bc pose_z ps w results w'
    /\ r = success && forallb id results.
Proof.
  induction ps as [|[px py] ps IH]; intros success w r w' Hrun;
    simpl in Hrun.
  - injection Hrun as <- <-. exists []. split; [constructor|].
    by rewrite andb_true_r.
  - unfold bind in Hrun.
    destruct (example_cartesian_action_movement base bc px py pose_z w)
      as [[finished| |] w1] eqn:Hstep; try discriminate.
    destruct (IH _ _ _ _ Hrun) as (results & Hrest & ->).
    exists (finished :: results). split; [by econstructor|].
    simpl. by rewrite andb_assoc.
Qed.

Lemma main_run router w home initial vertices w' :
  sequence_run router w home initial vertices w' ->
  main router w
  = (Returned (if home && initial && forallb id vertices then 0 else 1)%Z,
     w').
Proof.
  intros (fb0 & w1 & w2 & fb1 & w3 & w4 & fb2 & w5
          & H0 & H1 & H2 & H3 & H4 & H5).
  unfold main, bind. rewrite H0, H1, H2, H3, H4.
  rewrite (for_points_run _ _ _ _ _ _ _ H5). done.
Qed.

Lemma main_inv router w code w' :
  main router w = (Returned code, w') ->
  exists home initial vertices,
    sequence_run router w home initial vertices w'
    /\ code = (if home && initial && forallb id vertices then 0 else 1)%Z.
Proof.
  unfold main, bind. intros Hrun.
  destruct (BaseCyclic.RefreshFeedback router w)
    as [[fb0| |] w1] eqn:H0; try discriminate.
  destruct (example_move_to_home_position router w1)
    as [[home| |] w2] eqn:H1; try discriminate.
  destruct (BaseCyclic.RefreshFeedback router w2)
    as [[fb1| |] w3] eqn:H2; try discriminate.
  destruct (example_cartesian_action_movement router router _ _ _ w3)
    as [[initial| |] w4] eqn:H3; try discriminate.
  destruct (BaseCyclic.RefreshFeedback router w4)
    as [[fb2| |] w5] eqn:H4; try discriminate.
  destruct (for_points router router _ _ _ w5)
    as [[r| |] w6] eqn:H5; try discriminate.
  injection Hrun as <- <-.
  apply for_points_inv in H5 as (vertices & H5 & ->).
  exists home, initial, vertices. split; [|done].
  unfold sequence_run, returns. eauto 15.
Qed.

Lemma halts_ret {A} (a : A) : halts (ret a).
Proof. by intros w. Qed.

Lemma halts_bind {A B} (m : M A) (k : A -> M B) :
  halts m -> (forall a, halts (k a)) -> halts (bind m k).
Proof.
  intros Hm Hk w. unfold bind. specialize (Hm w).
  destruct (m w) as [[a| |] w1]; simpl in *; [apply Hk|done|done].
Qed.

Lemma halts_call r c : halts (call r c).
Proof. intros w. unfold call. by destruct (transport_fails r _). Qed.

Lemma halts_wait r e timeout : halts (threading.wait r e timeout).
Proof.
  intros w. unfold threading.wait.
  by destruct (threading.wait_until _ _ _ w).
Qed.

Lemma halts_Event : halts threading.Event.
Proof. by intros w. Qed.

Create HintDb halts.
#[local] Hint Resolve halts_ret halts_call halts_wait halts_Event : halts.

Ltac halts_steps :=
  repeat (first [ apply halts_bind; [|intros ?]
                | solve [auto with halts]
                | by intros ? ]).

Lemma halts_RefreshFeedback r : halts (BaseCyclic.RefreshFeedback r).
Proof. unfold BaseCyclic.RefreshFeedback. halts_steps. Qed.

Lemma halts_home base : halts (example_move_to_home_position base).
Proof.
  unfold example_move_to_home_position, Base.SetServoingMode,
    Base.ReadAllActions, Base.OnNotificationActionTopic,
    Base.ExecuteActionFromReference, Base.Unsubscribe.
  apply halts_bind; [halts_steps|intros _].
  apply halts_bind; [halts_steps|intros action_list].
  destruct (home_handle action_list); halts_steps.
Qed.

Lemma halts_cartesian base bc px py pz :
  halts (example_cartesian_action_movement base bc px py pz).
Proof.
  unfold example_cartesian_action_movement, BaseCyclic.RefreshFeedback,
    Base.OnNotificationActionTopic, Base.ExecuteAction, Base.Unsubscribe.
  halts_steps.
Qed.

Lemma halts_for_points base bc pose_z ps :
  forall success, halts (for_points base bc pose_z ps success).
Proof.
  induction ps as [|[px py] ps IH]; intros success; simpl.
  - apply halts_ret.
  - apply halts_bind; [apply halts_cartesian|intros ?; apply IH].
Qed.

Lemma halts_main router : halts (main router).
Proof.
  unfold main.
  repeat (apply halts_bind;
          [first [ apply halts_RefreshFeedback | apply halts_home
                 | apply halts_cartesian | apply halts_for_points ]
          |intros ?]).
  apply halts_ret.
Qed.

Lemma dispatches_app l1 l2 :
  dispatches (l1 ++ l2) = dispatches l1 + dispatches l2.
Proof. unfold dispatches. by rewrite List.filter_app, length_app. Qed.

(** The steps of the sequence on a healthy link. *)
Lemma refresh_step r w :
  healthy r ->
  returns (BaseCyclic.RefreshFeedback r) w
          (feedback r (length (rpc_log w))) (after [RefreshFeedback] w).
Proof.
  intros H. unfold returns, BaseCyclic.RefreshFeedback, bind.
  by rewrite call_healthy.
Qed.

Lemma cartesian_step base bc px py pz w :
  healthy base -> healthy bc -> subscribers w = [] ->
  exists finished w' l,
    returns (example_cartesian_action_movement base bc px py pz)
            w finished w'
    /\ subscribers w' = []
    /\ rpc_log w' = rpc_log w ++ l /\ dispatches l = 1.
Proof.
  intros Hb Hbc Hs. eexists _, _, _. split; [by apply cartesian_run|].
  simpl. done.
Qed.

Lemma home_step base hd w :
  healthy base -> subscribers w = [] ->
  home_handle (stored_actions base REACH_JOINT_ANGLES) = Some hd ->
  exists finished w' l,
    returns (example_move_to_home_position base) w finished w'
    /\ subscribers w' = []
    /\ rpc_log w' = rpc_log w ++ l /\ dispatches l = 1.
Proof.
  intros Hb Hs Hh. eexists _, _, _. split; [by eapply home_run|].
  simpl. done.
Qed.

Lemma vertices_steps base bc pose_z ps : forall w,
  healthy base -> healthy bc -> subscribers w = [] ->
  exists results w' l,
    vertices_run base bc pose_z ps w results w'
    /\ subscribers w' = []
    /\ rpc_log w' = rpc_log w ++ l /\ dispatches l = length ps.
Proof.
  induction ps as [|[px py] ps IH]; intros w Hb Hbc Hs.
  - exists [], w, []. split; [constructor|]. by rewrite app_nil_r.
  - destruct (cartesian_step base bc px py pose_z w Hb Hbc Hs)
      as (finished & w1 & l1 & Hstep & Hs1 & Hl1 & Hd1).
    destruct (IH w1 Hb Hbc Hs1) as (results & w' & l & Hrest & Hs' & Hl & Hd).
    exists (finished :: results), w', (l1 ++ l).
    split; [by econstructor|]. split; [done|].
    split; [by rewrite Hl, Hl1, app_assoc|].
    rewrite dispatches_app, Hd1, Hd. done.
Qed.

Lemma sequence_steps router hd w :
  healthy router -> subscribers w = [] ->
  home_handle (stored_actions router REACH_JOINT_ANGLES) = Some hd ->
  exists home initial vertices w' l,
    sequence_run router w home initial vertices w'
    /\ rpc_log w' = rpc_log w ++ l /\ dispatches l = 6.
Proof.
  intros H Hs Hh.
  pose proof (refresh_step router w H) as H0.
  set (w1 := after [RefreshFeedback] w) in *.
  destruct (home_step router hd w1 H Hs Hh)
    as (home & w2 & l2 & H1 & Hs2 & Hl2 & Hd2).
  pose proof (refresh_step router w2 H) as H2.
  set (fb1 := feedback router (length (rpc_log w2))) in *.
  set (w3 := after [RefreshFeedback] w2) in *.
  destruct (cartesian_step router router
              (drawing_default_pose fb1).1.1 (drawing_default_pose fb1).1.2
              (drawing_default_pose fb1).2 w3 H H Hs2)
    as (initial & w4 & l4 & H3 & Hs4 & Hl4 & Hd4).
  pose proof (refresh_step router w4 H) as H4.
  set (fb2 := feedback router (length (rpc_log w4))) in *.
  set (w5 := after [RefreshFeedback] w4) in *.
  destruct (vertices_steps router router (tool_pose_z fb2) (points fb2)
              w5 H H Hs4)
    as (vertices & w' & l6 & H5 & _ & Hl6 & Hd6).
  exists home, initial, vertices, w',
    ([RefreshFeedback] ++ l2 ++ [RefreshFeedback] ++ l4
     ++ [RefreshFeedback] ++ l6).
  split; [unfold sequence_run; eauto 15|]. split.
  - rewrite Hl6. subst w5; simpl. rewrite Hl4. subst w3; simpl.
    rewrite Hl2. subst w1; simpl. by rewrite <- !app_assoc.
  - rewrite !dispatches_app, Hd2, Hd4, Hd6. reflexivity.
Qed.

(** *** The claims on subscriptions and on the sequence *)

(** C3, as stated, fails: when the action request of a dispatch that
    has subscribed raises, the error leaves the dispatch and the handle
    is not unsubscribed. *)
Lemma execute_error_leaks_subscription :
  let run := example_cartesian_action_movement
               (failing 2) (failing 2) 0.5 0.1 0.2 in
  (run boot).1 = Raised
  /\ 1 ∈ map fst (subscribers (run boot).2)
  /\ ~ (unsubscribes 1 (issued run boot) = 1).
Proof.
  intros run. split; [reflexivity|]. split.
  - vm_compute. by apply list_elem_of_singleton.
  - vm_compute. discriminate.
Qed.

(** C3, amended: a dispatch that has subscribed and whose action
    request returns makes exactly one unsubscribe request for its
    handle, whether the wait completes or times out; when the action
    request raises, the dispatch raises, no unsubscribe request is made
    and the handle stays subscribed. *)
Theorem subscription_released_unless_execute_raises
    base bc px py pz hd w :
  let n := length (rpc_log w) in
  let cartesian := example_cartesian_action_movement base bc px py pz in
  let home := example_move_to_home_position base in
  (transport_fails bc n = false ->
   transport_fails base (S n) = false ->
   if transport_fails base (n + 2)
   then (cartesian w).1 = Raised
        /\ unsubscribes (S n) (issued cartesian w) = 0
        /\ S n ∈ map fst (subscribers (cartesian w).2)
   else unsubscribes (S n) (issued cartesian w) = 1
        /\ (transport_fails base (n + 3) = false ->
            exists finished, (cartesian w).1 = Returned finished))
  /\ (home_handle (stored_actions base REACH_JOINT_ANGLES) = Some hd ->
      transport_fails base n = false ->
      transport_fails base (S n) = false ->
      transport_fails base (n + 2) = false ->
      if transport_fails base (n + 3)
      then (home w).1 = Raised
           /\ unsubscribes (n + 2) (issued home w) = 0
           /\ n + 2 ∈ map fst (subscribers (home w).2)
      else unsubscribes (n + 2) (issued home w) = 1
           /\ (transport_fails base (n + 4) = false ->
               exists finished, (home w).1 = Returned finished)).
Proof.
  intros n cartesian home. split.
  - intros E0 E1.
    pose proof (cartesian_cases base bc px py pz w) as Hc. simpl in Hc.
    fold n cartesian in Hc. rewrite E0, E1 in Hc.
    destruct (transport_fails base (n + 2)).
    + destruct Hc as (Hr & Hl & Hsub).
      rewrite (issued_app _ _ _ Hl). done.
    + destruct Hc as (Hl & Hr).
      rewrite (issued_app _ _ _ Hl). split.
      * unfold unsubscribes; simpl.
        by rewrite bool_decide_eq_true_2.
      * intros E3. by rewrite E3 in Hr.
  - intros Hh E0 E1 E2.
    pose proof (home_cases base hd w Hh) as Hc. simpl in Hc.
    fold n home in Hc. rewrite E0, E1, E2 in Hc.
    destruct (transport_fails base (n + 3)).
    + destruct Hc as (Hr & Hl & Hsub).
      rewrite (issued_app _ _ _ Hl). done.
    + destruct Hc as (Hl & Hr).
      rewrite (issued_app _ _ _ Hl). split.
      * unfold unsubscribes; simpl.
        by rewrite bool_decide_eq_true_2.
      * intros E4. by rewrite E4 in Hr.
Qed.

Lemma subscription_released_unless_execute_raises_witness :
  unsubscribes 1
    (issued (example_cartesian_action_movement prompt prompt 0.5 0.1 0.2)
            boot) = 1
  /\ (transport_fails prompt 3 = false ->
      exists finished,
        (example_cartesian_action_movement prompt prompt 0.5 0.1 0.2
           boot).1 = Returned finished).
Proof.
  apply (proj1 (subscription_released_unless_execute_raises
                  prompt prompt 0.5 0.1 0.2 {| identifier := 2 |} boot));
    reflexivity.
Defined.

(** C1, as stated, fails: when the first dispatch of [main] times out,
    the five other descriptors are dispatched all the same; [main]
    returns 1 after six action requests, not one. *)
Lemma main_is_not_fail_fast :
  (example_move_to_home_position silent
     (BaseCyclic.RefreshFeedback silent boot).2).1 = Returned false
  /\ dispatches
       (issued (example_move_to_home_position silent)
               (BaseCyclic.RefreshFeedback silent boot).2) = 1
  /\ (main silent boot).1 = Returned 1%Z
  /\ ~ (dispatches (issued (main silent) boot) = 0 + 1).
Proof.
  split; [reflexivity|]. split; [reflexivity|]. split; [reflexivity|].
  vm_compute. discriminate.
Qed.

(** C1, amended: on a healthy link, with "Home" stored and no other
    subscription outstanding, the six steps of [main] all run, whatever
    the earlier ones return; [main] returns 0 when all of them return
    true and 1 otherwise, and in both cases it has made exactly six
    action requests. Likewise the loop over the points dispatches every
    one of them, however many there are and whatever the earlier moves
    return, and accumulates the conjunction of their results. *)
Theorem main_dispatches_every_step router hd w :
  healthy router -> subscribers w = [] ->
  home_handle (stored_actions router REACH_JOINT_ANGLES) = Some hd ->
  (exists home initial vertices w',
      sequence_run router w home initial vertices w'
      /\ length vertices = 4
      /\ main router w
         = (Returned
              (if home && initial && forallb id vertices then 0 else 1)%Z,
            w')
      /\ dispatches (issued (main router) w) = 6)
  /\ (forall pose_z ps success,
        exists results w',
          vertices_run router router pose_z ps w results w'
          /\ for_points router router pose_z ps success w
             = (Returned (success && forallb id results), w')
          /\ dispatches (issued (for_points router router pose_z ps success)
                                w) = length ps).
Proof.
  intros H Hs Hh. split.
  - destruct (sequence_steps router hd w H Hs Hh)
      as (home & initial & vertices & w' & l & Hrun & Hl & Hd).
    exists home, initial, vertices, w'. split; [done|].
    pose proof (main_run _ _ _ _ _ _ Hrun) as Hmain.
    split; [|split; [done|]].
    + destruct Hrun as (? & ? & ? & ? & ? & ? & fb2 & ? & _ & _ & _ & _ & _
                        & Hv).
      by apply vertices_run_length in Hv.
    + rewrite (issued_app (main router) w l); [done|]. by rewrite Hmain.
  - intros pose_z ps success.
    destruct (vertices_steps router router pose_z ps w H H Hs)
      as (results & w' & l & Hrun & _ & Hl & Hd).
    exists results, w'. split; [done|].
    pose proof (for_points_run _ _ _ _ _ _ _ Hrun success) as Hloop.
    split; [done|].
    rewrite (issued_app _ w l); [done|]. by rewrite Hloop.
Qed.

Lemma main_dispatches_every_step_witness :
  exists home initial vertices w',
    sequence_run silent boot home initial vertices w'
    /\ length vertices = 4
    /\ main silent boot
       = (Returned
            (if home && initial && forallb id vertices then 0 else 1)%Z,
          w')
    /\ dispatches (issued (main silent) boot) = 6.
Proof.
  apply (proj1 (main_dispatches_every_step
                  silent {| identifier := 2 |} boot
                  (fun n => eq_refl) eq_refl eq_refl)).
Defined.

(** C8: the process ends with status 0 if and only if the home move,
    the move to the initial point and the four vertex moves all return
    true; in every other case it ends with status 1. *)
Theorem exit_status_zero_iff router w :
  (exit_status (main router w) = Some 0%Z
   <-> exists w',
         sequence_run router w true true [true; true; true; true] w')
  /\ (exit_status (main router w) <> Some 0%Z ->
      exit_status (main router w) = Some 1%Z).
Proof.
  split; [split|].
  - unfold exit_status.
    destruct (main router w) as [[code| |] w'] eqn:Hmain; simpl;
      try discriminate.
    intros [= ->].
    destruct (main_inv _ _ _ _ Hmain)
      as (home & initial & vertices & Hrun & Hcode).
    exists w'.
    destruct (home && initial && forallb id vertices) eqn:Hall;
      [|discriminate].
    apply andb_true_iff in Hall as [Hall Hv].
    apply andb_true_iff in Hall as [-> ->].
    assert (Hlen : length vertices = 4).
    { destruct Hrun as (? & ? & ? & ? & ? & ? & fb2 & ? & _ & _ & _ & _
                        & _ & Hr).
      by apply vertices_run_length in Hr. }
    destruct vertices as [|[] [|[] [|[] [|[] [|]]]]]; try discriminate.
    done.
  - intros [w' Hrun]. by rewrite (main_run _ _ _ _ _ _ Hrun).
  - unfold exit_status. pose proof (halts_main router w) as Hhalt.
    destruct (main router w) as [[code| |] w'] eqn:Hmain; simpl in *;
      [|done|done].
    destruct (main_inv _ _ _ _ Hmain)
      as (home & initial & vertices & _ & ->).
    by destruct (home && initial && forallb id vertices).
Qed.

(** *** Runs of the dispatchers on concrete devices *)

Lemma dispatch_completed_iff_witness :
  exists finished w',
    example_cartesian_action_movement prompt prompt 0.5 0.1 0.2 boot
    = (Returned finished, w')
    /\ (finished = true
        <-> exists d, d ∈ notifications prompt (0 + 3)
                      /\ in_time d /\ terminal (notification d)).
Proof.
  apply (proj1 (dispatch_completed_iff
                  prompt prompt 0.5 0.1 0.2 {| identifier := 2 |} boot
                  (fun n => eq_refl) (fun n => eq_refl)
                  eq_refl eq_refl)).
Defined.

Lemma no_home_returns_false_witness :
  example_move_to_home_position (scripted []) boot
  = (Returned false,
     {| rpc_log := [ SetServoingMode SINGLE_LEVEL_SERVOING;
                     ReadAllActions REACH_JOINT_ANGLES ];
        events := [];
        subscribers := [] |}).
Proof.
  apply (no_home_returns_false (scripted []) boot).
  - intros n; reflexivity.
  - intros a Ha. by apply elem_of_nil in Ha.
Defined.

Lemma cartesian_action_pose_witness :
  action_parameters (cartesian_action 0.5 0.1 0.2 (feedback silent 0))
  = reach_pose
      {| x := 0.5; y := 0.1; z := 0.2;
         theta_x := 90; theta_y := 0; theta_z := 90 |}.
Proof.
  apply (cartesian_action_pose silent silent 0.5 0.1 0.2 boot
           (cartesian_action 0.5 0.1 0.2 (feedback silent 0))).
  vm_compute. apply list_elem_of_further, list_elem_of_further.
  apply list_elem_of_here.
Defined.

End DrawingProofs.


(** ** Whole runs: how the steps compose *)

Module RunProofs.
Import Kortex Observe Trace Drawing.
Import GripperProofs DrawingProofs.

(** A world with no subscription outstanding. *)
Lemma world_eta w :
  subscribers w = [] ->
  w = {| rpc_log := rpc_log w; events := events w; subscribers := [] |}.
Proof. destruct w; simpl. by intros ->. Qed.

Lemma refresh_at r l h s n :
  healthy r -> length l = n ->
  BaseCyclic.RefreshFeedback r
    {| rpc_log := l; events := h; subscribers := s |}
  = (Returned (feedback r n),
     {| rpc_log := l ++ [RefreshFeedback]; events := h; subscribers := s |}).
Proof.
  intros H <-. unfold BaseCyclic.RefreshFeedback, bind.
  by rewrite call_healthy.
Qed.

Lemma cartesian_at base bc px py pz l h n :
  healthy base -> healthy bc -> length l = n ->
  example_cartesian_action_movement base bc px py pz
    {| rpc_log := l; events := h; subscribers := [] |}
  = (Returned (signalled (notifications base (n + 3))),
     {| rpc_log := l ++ cartesian_requests bc n px py pz;
        events := h ++ [signalled (notifications base (n + 3))];
        subscribers := [] |}).
Proof. intros Hb Hbc <-. by rewrite cartesian_run. Qed.

Lemma home_at base hd l h n :
  healthy base ->
  home_handle (stored_actions base REACH_JOINT_ANGLES) = Some hd ->
  length l = n ->
  example_move_to_home_position base
    {| rpc_log := l; events := h; subscribers := [] |}
  = (Returned (signalled (notifications base (n + 4))),
     {| rpc_log := l ++ home_requests hd n;
        events := h ++ [signalled (notifications base (n + 4))];
        subscribers := [] |}).
Proof. intros Hb Hh <-. by rewrite (home_run base hd). Qed.

Lemma for_points_at base bc pose_z ps : forall l h n success,
  healthy base -> healthy bc -> length l = n ->
  for_points base bc pose_z ps success
    {| rpc_log := l; events := h; subscribers := [] |}
  = (Returned (success && forallb id (vertex_results base n ps)),
     {| rpc_log := l ++ vertex_requests bc n pose_z ps;
        events := h ++ vertex_results base n ps;
        subscribers := [] |}).
Proof.
  induction ps as [|[px py] ps IH]; intros l h n success Hb Hbc Hn; simpl.
  - by rewrite andb_true_r, !app_nil_r.
  - unfold bind. rewrite (cartesian_at base bc px py pose_z l h n) by done.
    rewrite (IH _ _ (n + 4)); [|done|done|].
    + rewrite <- !app_assoc. by rewrite andb_assoc.
    + rewrite length_app; simpl. lia.
Qed.

Lemma main_at router hd l h n :
  healthy router ->
  home_handle (stored_actions router REACH_JOINT_ANGLES) = Some hd ->
  length l = n ->
  main router {| rpc_log := l; events := h; subscribers := [] |}
  = (Returned (if forallb id (main_results router n) then 0 else 1)%Z,
     {| rpc_log := l ++ main_requests router hd n;
        events := h ++ main_results router n;
        subscribers := [] |}).
Proof.
  intros H Hh Hn. unfold main, bind.
  rewrite (refresh_at router l h [] n) by done.
  rewrite (home_at router hd _ h (n + 1));
    [|done|done|rewrite length_app; simpl; lia].
  rewrite (refresh_at router _ _ [] (n + 6));
    [|done|rewrite !length_app; simpl; lia].
  rewrite (cartesian_at router router _ _ _ _ _ (n + 7));
    [|done|done|rewrite !length_app; simpl; lia].
  rewrite (refresh_at router _ _ [] (n + 11));
    [|done|rewrite !length_app; simpl; lia].
  rewrite (for_points_at router router _ _ _ _ (n + 12));
    [|done|done|rewrite !length_app; simpl; lia].
  unfold main_requests, main_results.
  replace (n + 1 + 4) with (n + 5) by lia.
  replace (n + 7 + 3) with (n + 10) by lia.
  rewrite <- !app_assoc. unfold ret. cbn [forallb andb id].
  by rewrite <- andb_assoc.
Qed.

Lemma main_no_home_at router l h n :
  healthy router ->
  home_handle (stored_actions router REACH_JOINT_ANGLES) = None ->
  length l = n ->
  exists results,
    main router {| rpc_log := l; events := h; subscribers := [] |}
    = (Returned 1%Z,
       {| rpc_log := l ++ main_requests_no_home router n;
          events := h ++ results;
          subscribers := [] |}).
Proof.
  intros H Hh Hn. unfold main, bind.
  rewrite (refresh_at router l h [] n) by done.
  rewrite no_home_run by done. unfold after; cbn [rpc_log events subscribers].
  rewrite (refresh_at router _ _ [] (n + 3));
    [|done|rewrite !length_app; simpl; lia].
  rewrite (cartesian_at router router _ _ _ _ _ (n + 4));
    [|done|done|rewrite !length_app; simpl; lia].
  rewrite (refresh_at router _ _ [] (n + 8));
    [|done|rewrite !length_app; simpl; lia].
  rewrite (for_points_at router router _ _ _ _ (n + 9));
    [|done|done|rewrite !length_app; simpl; lia].
  eexists. unfold main_requests_no_home, ret.
  rewrite <- !app_assoc. cbn [andb]. reflexivity.
Qed.

Lemma main_results_waits router n :
  main_results router n
  = map (fun k => signalled (notifications router (n + k)))
        [5; 10; 15; 19; 23; 27].
Proof.
  unfold main_results, points. cbn [vertex_results map].
  repeat (f_equal; try (f_equal; f_equal; lia)).
Qed.

Lemma foldl_no_home (l : list Action) : forall acc,
  (forall b, b ∈ l -> name b <> "Home") ->
  foldl (fun action_handle action =>
           if String.eqb (name action) "Home"
           then Some (handle action)
           else action_handle) acc l = acc.
Proof.
  induction l as [|b l IH]; intros acc Hno; simpl; [done|].
  destruct (String.eqb (name b) "Home") eqn:E.
  - apply String.eqb_eq in E. destruct (Hno b); [left|done].
  - apply IH. intros b' Hb'. apply Hno. by right.
Qed.

Lemma home_handle_last l1 a l2 :
  name a = "Home" ->
  (forall b, b ∈ l2 -> name b <> "Home") ->
  home_handle (l1 ++ a :: l2) = Some (handle a).
Proof.
  intros Ha Hno. unfold home_handle. rewrite foldl_app. simpl.
  rewrite Ha. simpl. by apply foldl_no_home.
Qed.

(** *** Properties of the dispatchers and of the sequence *)

(** X1: the loop that looks for "Home" has no [break]: when several
    stored actions bear the name, the home dispatch executes the handle
    of the last of them, and nothing else. *)
Theorem home_dispatch_executes_last_home base w l1 a l2 :
  healthy base ->
  stored_actions base REACH_JOINT_ANGLES = l1 ++ a :: l2 ->
  name a = "Home" ->
  (forall b, b ∈ l2 -> name b <> "Home") ->
  List.filter is_dispatch (issued (example_move_to_home_position base) w)
  = [ExecuteActionFromReference (handle a)].
Proof.
  intros Hb Hl Ha Hno.
  assert (Hh : home_handle (stored_actions base REACH_JOINT_ANGLES)
               = Some (handle a)).
  { rewrite Hl. by apply home_handle_last. }
  pose proof (home_cases base (handle a) w Hh) as Hc. simpl in Hc.
  rewrite !Hb in Hc. destruct Hc as [Hlog _].
  by rewrite (issued_app _ _ _ Hlog).
Qed.

Lemma home_dispatch_executes_last_home_witness :
  List.filter is_dispatch
    (issued (example_move_to_home_position
               {| transport_fails := fun _ => false;
                  stored_actions := fun _ =>
                    [ home_action;
                      {| name := "Home"; application_data := "";
                         handle := {| identifier := 7 |};
                         action_parameters := no_parameters |};
                      {| name := "Retract"; application_data := "";
                         handle := {| identifier := 1 |};
                         action_parameters := no_parameters |} ];
                  feedback := feedback silent;
                  measured := measured silent;
                  notifications := notifications silent |}) boot)
  = [ExecuteActionFromReference {| identifier := 7 |}].
Proof.
  apply (home_dispatch_executes_last_home _ boot [home_action]
           {| name := "Home"; application_data := "";
              handle := {| identifier := 7 |};
              action_parameters := no_parameters |}
           [ {| name := "Retract"; application_data := "";
                handle := {| identifier := 1 |};
                action_parameters := no_parameters |} ]).
  - intros n; reflexivity.
  - reflexivity.
  - reflexivity.
  - intros b Hb. apply list_elem_of_singleton in Hb as ->. discriminate.
Defined.

(** X2: when no "Home" action is stored, [main] goes on after the failed
    home step: on a healthy link it still requests the five Cartesian
    moves, and it returns 1 whatever they return. *)
Theorem main_without_home router w :
  healthy router -> subscribers w = [] ->
  (forall a, a ∈ stored_actions router REACH_JOINT_ANGLES ->
             name a <> "Home") ->
  (main router w).1 = Returned 1%Z
  /\ issued (main router) w
     = main_requests_no_home router (length (rpc_log w))
  /\ dispatches (issued (main router) w) = 5
  /\ subscribers (main router w).2 = [].
Proof.
  intros H Hs Hno. apply home_handle_None in Hno.
  rewrite (world_eta w Hs).
  destruct (main_no_home_at router (rpc_log w) (events w) _ H Hno eq_refl)
    as [results Hrun].
  cbn [rpc_log]. rewrite (issued_app _ _ _ (f_equal (fun r => rpc_log r.2) Hrun)).
  rewrite Hrun. repeat split; reflexivity.
Qed.

Lemma main_without_home_witness :
  (main (scripted []) boot).1 = Returned 1%Z
  /\ issued (main (scripted [])) boot = main_requests_no_home (scripted []) 0
  /\ dispatches (issued (main (scripted [])) boot) = 5
  /\ subscribers (main (scripted []) boot).2 = [].
Proof.
  apply (main_without_home (scripted []) boot).
  - intros n; reflexivity.
  - reflexivity.
  - intros a Ha. by apply elem_of_nil in Ha.
Defined.

(** X3: on a healthy link, with "Home" stored and no other subscription
    outstanding, [main] makes 28 requests and leaves no subscription; the
    process ends with status 0 if and only if, during each of the six
    waits, which begin after 5, 10, 15, 19, 23 and 27 of these requests,
    a notification of the end or of the abort of the action arrives in
    time. *)
Theorem main_status_by_notifications router hd w :
  healthy router -> subscribers w = [] ->
  home_handle (stored_actions router REACH_JOINT_ANGLES) = Some hd ->
  let n := length (rpc_log w) in
  (exit_status (main router w) = Some 0%Z
   <-> forall k, k ∈ [5; 10; 15; 19; 23; 27] ->
         exists d, d ∈ notifications router (n + k)
                   /\ in_time d /\ terminal (notification d))
  /\ (exit_status (main router w) <> Some 0%Z ->
      exit_status (main router w) = Some 1%Z)
  /\ length (issued (main router) w) = 28
  /\ subscribers (main router w).2 = [].
Proof.
  intros H Hs Hh n. subst n. rewrite (world_eta w Hs).
  pose proof (main_at router hd (rpc_log w) (events w) _ H Hh eq_refl)
    as Hrun.
  cbn [rpc_log].
  rewrite (issued_app _ _ _ (f_equal (fun r => rpc_log r.2) Hrun)).
  rewrite Hrun. unfold exit_status. cbn [fst snd subscribers].
  rewrite main_results_waits. clear Hrun.
  split; [|split; [|split; reflexivity]].
  - destruct (forallb id _) eqn:Hall.
    + split; [intros _|done]. rewrite forallb_forall in Hall.
      intros k Hk. apply signalled_true.
      apply (Hall (signalled (notifications router (length (rpc_log w) + k)))).
      apply in_map_iff. exists k. split; [done|]. by apply list_elem_of_In.
    + split; [done|]. intros Hk. exfalso.
      apply not_true_iff_false in Hall. apply Hall.
      apply forallb_forall. intros b Hb.
      apply in_map_iff in Hb as (k & <- & Hin).
      apply signalled_true, Hk. by apply list_elem_of_In.
  - by destruct (forallb id _).
Qed.

Lemma main_status_by_notifications_witness :
  length (issued (main prompt) boot) = 28
  /\ subscribers (main prompt boot).2 = [].
Proof.
  apply (main_status_by_notifications prompt {| identifier := 2 |} boot);
    [intros n; reflexivity | reflexivity | reflexivity].
Defined.

(** X4: on a healthy link, with "Home" stored and no other subscription
    outstanding, the action requests of [main] are, in order: "Home",
    the move to the initial point, and the moves to the four vertices.
    The initial point is computed from the feedback read after the home
    move, all four vertices and their height from the one feedback read
    after the initial move, and the orientation of each move from the
    feedback read at the start of that move. *)
Theorem main_action_requests router hd w :
  healthy router -> subscribers w = [] ->
  home_handle (stored_actions router REACH_JOINT_ANGLES) = Some hd ->
  let n := length (rpc_log w) in
  let fb1 := feedback router (n + 6) in
  let fb2 := feedback router (n + 11) in
  List.filter is_dispatch (issued (main router) w)
  = [ ExecuteActionFromReference hd;
      ExecuteAction
        (cartesian_action
           (tool_pose_x fb1 + 0.2) (tool_pose_y fb1 + 0.1)
           (tool_pose_z fb1 - 0.37) (feedback router (n + 7)));
      ExecuteAction
        (cartesian_action
           (tool_pose_x fb2 + 0.05) (tool_pose_y fb2)
           (tool_pose_z fb2) (feedback router (n + 12)));
      ExecuteAction
        (cartesian_action
           (tool_pose_x fb2 + 0.05) (tool_pose_y fb2 + 0.05)
           (tool_pose_z fb2) (feedback router (n + 16)));
      ExecuteAction
        (cartesian_action
           (tool_pose_x fb2 - 0.05) (tool_pose_y fb2 + 0.05)
           (tool_pose_z fb2) (feedback router (n + 20)));
      ExecuteAction
        (cartesian_action
           (tool_pose_x fb2 - 0.05) (tool_pose_y fb2 - 0.05)
           (tool_pose_z fb2) (feedback router (n + 24))) ]%float.
Proof.
  intros H Hs Hh n fb1 fb2. subst n fb1 fb2. rewrite (world_eta w Hs).
  pose proof (main_at router hd (rpc_log w) (events w) _ H Hh eq_refl)
    as Hrun.
  cbn [rpc_log].
  rewrite (issued_app _ _ _ (f_equal (fun r => rpc_log r.2) Hrun)).
  unfold main_requests, points, drawing_default_pose.
  cbn [vertex_requests cartesian_requests home_requests app List.filter
       is_dispatch fst snd].
  repeat (f_equal; try (f_equal; f_equal; f_equal; lia)).
Qed.

Lemma main_action_requests_witness :
  List.filter is_dispatch (issued (main prompt) boot)
  = [ ExecuteActionFromReference {| identifier := 2 |};
      ExecuteAction (cartesian_action (0.4 + 0.2) (0.1 + 0.1) (0.5 - 0.37)
                       (feedback prompt 7));
      ExecuteAction (cartesian_action (0.4 + 0.05) 0.1 0.5
                       (feedback prompt 12));
      ExecuteAction (cartesian_action (0.4 + 0.05) (0.1 + 0.05) 0.5
                       (feedback prompt 16));
      ExecuteAction (cartesian_action (0.4 - 0.05) (0.1 + 0.05) 0.5
                       (feedback prompt 20));
      ExecuteAction (cartesian_action (0.4 - 0.05) (0.1 - 0.05) 0.5
                       (feedback prompt 24)) ]%float.
Proof.
  apply (main_action_requests prompt {| identifier := 2 |} boot
           (fun n => eq_refl) eq_refl eq_refl).
Defined.

Lemma executed_positions_vertex_requests bc pose_z ps : forall n,
  executed_positions (vertex_requests bc n pose_z ps)
  = map (fun p => (p.1, p.2, pose_z)) ps.
Proof.
  induction ps as [|[px py] ps IH]; intros n; [done|].
  cbn [vertex_requests]. unfold executed_positions in *.
  rewrite flat_map_app, IH. reflexivity.
Qed.

Lemma length_vertex_requests bc pose_z ps : forall n,
  length (vertex_requests bc n pose_z ps) = 4 * length ps.
Proof.
  induction ps as [|[px py] ps IH]; intros n; [done|].
  cbn [vertex_requests]. rewrite length_app, IH. simpl. lia.
Qed.

(** X5: on a healthy link and with no other subscription outstanding,
    the loop over the points requests one move per point, in the order
    of the list and all at the height it was given, with four requests
    for each; it returns the conjunction of the value of [success] it
    started with and of what the waits saw, so that it returns false
    whenever it started with false, after visiting every point. *)
Theorem for_points_visits_in_order base bc pose_z ps success w :
  healthy base -> healthy bc -> subscribers w = [] ->
  let loop := for_points base bc pose_z ps success in
  executed_positions (issued loop w) = map (fun p => (p.1, p.2, pose_z)) ps
  /\ length (issued loop w) = 4 * length ps
  /\ (loop w).1
     = Returned
         (success
          && forallb id (vertex_results base (length (rpc_log w)) ps))
  /\ (success = false -> (loop w).1 = Returned false).
Proof.
  intros Hb Hbc Hs loop. subst loop. rewrite (world_eta w Hs).
  pose proof (for_points_at base bc pose_z ps (rpc_log w) (events w) _
                success Hb Hbc eq_refl) as Hrun.
  cbn [rpc_log].
  rewrite (issued_app _ _ _ (f_equal (fun r => rpc_log r.2) Hrun)).
  rewrite Hrun. cbn [fst].
  split; [apply executed_positions_vertex_requests|].
  split; [apply length_vertex_requests|].
  split; [done|]. by intros ->.
Qed.

Lemma for_points_visits_in_order_witness :
  executed_positions
    (issued (for_points silent silent 0.3 [(0.1, 0.2); (0.4, 0.5)]%float
                        false)
            boot)
  = [(0.1, 0.2, 0.3); (0.4, 0.5, 0.3)]%float.
Proof.
  apply (for_points_visits_in_order silent silent 0.3
           [(0.1, 0.2); (0.4, 0.5)]%float false boot);
    [intros n; reflexivity | intros n; reflexivity | reflexivity].
Defined.

(** X6: on a healthy link and with no other subscription outstanding, a
    dispatch leaves the events that existed before it as they were, adds
    one event whose flag is the value it returns, and leaves no
    subscription behind; a Cartesian dispatch makes four requests and a
    home dispatch five. *)
Theorem dispatch_frame base bc px py pz hd w :
  healthy base -> healthy bc -> subscribers w = [] ->
  home_handle (stored_actions base REACH_JOINT_ANGLES) = Some hd ->
  let cartesian := example_cartesian_action_movement base bc px py pz in
  let home := example_move_to_home_position base in
  (exists finished,
      (cartesian w).1 = Returned finished
      /\ events (cartesian w).2 = events w ++ [finished]
      /\ subscribers (cartesian w).2 = []
      /\ length (issued cartesian w) = 4)
  /\ (exists finished,
         (home w).1 = Returned finished
         /\ events (home w).2 = events w ++ [finished]
         /\ subscribers (home w).2 = []
         /\ length (issued home w) = 5).
Proof.
  intros Hb Hbc Hs Hh cartesian home. subst cartesian home. split.
  - pose proof (cartesian_run base bc px py pz w Hb Hbc Hs) as Hrun.
    cbn zeta in Hrun.
    rewrite (issued_app _ _ _ (f_equal (fun r => rpc_log r.2) Hrun)).
    rewrite Hrun. eexists. repeat split; reflexivity.
  - pose proof (home_run base hd w Hb Hs Hh) as Hrun. cbn zeta in Hrun.
    rewrite (issued_app _ _ _ (f_equal (fun r => rpc_log r.2) Hrun)).
    rewrite Hrun. eexists. repeat split; reflexivity.
Qed.

Lemma dispatch_frame_witness :
  exists finished,
    (example_cartesian_action_movement prompt prompt 0.5 0.1 0.2 boot).1
    = Returned finished
    /\ events (example_cartesian_action_movement prompt prompt 0.5 0.1 0.2
                 boot).2 = events boot ++ [finished]
    /\ subscribers (example_cartesian_action_movement prompt prompt
                      0.5 0.1 0.2 boot).2 = []
    /\ length (issued (example_cartesian_action_movement prompt prompt
                         0.5 0.1 0.2) boot) = 4.
Proof.
  apply (proj1 (dispatch_frame prompt prompt 0.5 0.1 0.2
                  {| identifier := 2 |} boot
                  (fun n => eq_refl) (fun n => eq_refl) eq_refl eq_refl)).
Defined.

(** *** Transport errors end a run at once *)

Section StopsAtFailure.
Variable r : Router.

Lemma stops_step {A} (m : M A) :
  (forall w, exists a, (m w).1 = Returned a) ->
  (forall w, rpc_log (m w).2 = rpc_log w) ->
  stops_at_failure r m.
Proof.
  intros Hret Hlog w. exists []. rewrite Hlog, app_nil_r.
  split; [done|]. split; [simpl; lia|].
  destruct (Hret w) as [a ->]. simpl. lia.
Qed.

Lemma stops_ret {A} (a : A) : stops_at_failure r (ret a).
Proof. apply stops_step; intros w; [by exists a|done]. Qed.

Lemma stops_still_running {A} : stops_at_failure r (@still_running A).
Proof.
  intros w. exists []. simpl. rewrite app_nil_r.
  split; [done|]. split; simpl; lia.
Qed.

Lemma stops_call c : stops_at_failure r (call r c).
Proof.
  intros w. exists [c]. unfold call.
  destruct (transport_fails r (length (rpc_log w))) eqn:E; simpl.
  - split; [done|]. split; [lia|]. exists 0. by rewrite Nat.add_0_r.
  - split; [done|]. split; [lia|]. intros k Hk.
    replace k with 0 by lia. by rewrite Nat.add_0_r.
Qed.

Lemma stops_bind {A B} (m : M A) (k : A -> M B) :
  stops_at_failure r m -> (forall a, stops_at_failure r (k a)) ->
  stops_at_failure r (bind m k).
Proof.
  intros Hm Hk w. unfold bind.
  destruct (Hm w) as (l1 & Hl1 & Hpre1 & Hend1).
  destruct (m w) as [[a| |] w1] eqn:E; simpl in *.
  - destruct (Hk a w1) as (l2 & Hl2 & Hpre2 & Hend2).
    rewrite Hl1, length_app in Hpre2, Hend2.
    exists (l1 ++ l2). rewrite Hl2, Hl1, app_assoc, length_app.
    split; [done|]. split.
    + intros j Hj. destruct (decide (j < length l1)) as [Hlt|Hge].
      * by apply Hend1.
      * replace j with (length l1 + (j - length l1)) by lia.
        rewrite Nat.add_assoc. apply Hpre2. lia.
    + destruct ((k a w1).1).
      * intros j Hj. destruct (decide (j < length l1)) as [Hlt|Hge].
        -- by apply Hend1.
        -- replace j with (length l1 + (j - length l1)) by lia.
           rewrite Nat.add_assoc. apply Hend2. lia.
      * destruct Hend2 as (j & Hj & Hfail).
        exists (length l1 + j). split; [lia|]. by rewrite Nat.add_assoc.
      * intros j Hj. destruct (decide (j < length l1)) as [Hlt|Hge].
        -- by apply Hend1.
        -- replace j with (length l1 + (j - length l1)) by lia.
           rewrite Nat.add_assoc. apply Hend2. lia.
  - exists l1. done.
  - exists l1. done.
Qed.

Lemma stops_wait e timeout : stops_at_failure r (threading.wait r e timeout).
Proof.
  apply stops_step; intros w.
  - destruct (wait_run r e timeout w) as (finished & heap & ->). eauto.
  - destruct (wait_run r e timeout w) as (finished & heap & ->). done.
Qed.

Ltac stops_steps :=
  repeat first
    [ apply stops_bind; [|intros ?]
    | apply stops_call
    | apply stops_ret
    | apply stops_wait
    | apply stops_still_running
    | apply stops_step; intros ?; [eexists; reflexivity|reflexivity] ].

Lemma stops_RefreshFeedback : stops_at_failure r (BaseCyclic.RefreshFeedback r).
Proof. unfold BaseCyclic.RefreshFeedback. stops_steps. Qed.

Lemma stops_home : stops_at_failure r (example_move_to_home_position r).
Proof.
  unfold example_move_to_home_position, Base.SetServoingMode,
    Base.ReadAllActions, Base.OnNotificationActionTopic,
    Base.ExecuteActionFromReference, Base.Unsubscribe, threading.Event.
  apply stops_bind; [stops_steps|intros _].
  apply stops_bind; [stops_steps|intros action_list].
  destruct (home_handle action_list); stops_steps.
Qed.

Lemma stops_cartesian px py pz :
  stops_at_failure r (example_cartesian_action_movement r r px py pz).
Proof.
  unfold example_cartesian_action_movement, BaseCyclic.RefreshFeedback,
    Base.OnNotificationActionTopic, Base.ExecuteAction, Base.Unsubscribe,
    threading.Event.
  stops_steps.
Qed.

Lemma stops_for_points pose_z ps : forall success,
  stops_at_failure r (for_points r r pose_z ps success).
Proof.
  induction ps as [|[px py] ps IH]; intros success; simpl.
  - apply stops_ret.
  - apply stops_bind; [apply stops_cartesian|intros ?; apply IH].
Qed.

Lemma stops_main : stops_at_failure r (main r).
Proof.
  unfold main.
  repeat (apply stops_bind;
          [first [ apply stops_RefreshFeedback | apply stops_home
                 | apply stops_cartesian | apply stops_for_points ]
          |intros ?]).
  apply stops_ret.
Qed.

Lemma stops_position_ramp fuel : forall position,
  stops_at_failure r (GripperCommandExample.position_ramp r fuel position).
Proof.
  induction fuel as [|fuel IH]; intros position; simpl;
    destruct (0.0 <? position)%float;
    try apply stops_ret; try apply stops_still_running.
  unfold Base.SendGripperCommand, time.sleep.
  apply stops_bind; [stops_steps|intros _].
  apply stops_bind; [stops_steps|intros _]. apply IH.
Qed.

Lemma stops_poll fuel q :
  stops_at_failure r (GripperCommandExample.poll_until_closed r fuel q).
Proof.
  induction fuel as [|fuel IH]; simpl; [apply stops_still_running|].
  unfold Base.GetMeasuredGripperMovement.
  apply stops_bind; [stops_steps|intros g].
  destruct (finger g) as [|f fs]; [apply stops_ret|].
  destruct (0.86 <? value f)%float; [apply stops_ret|apply IH].
Qed.

Lemma stops_gripper fuel :
  stops_at_failure r (GripperCommandExample.ExampleSendGripperCommands r fuel).
Proof.
  unfold GripperCommandExample.ExampleSendGripperCommands,
    Base.SendGripperCommand.
  apply stops_bind; [apply stops_position_ramp|intros _].
  apply stops_bind; [stops_steps|intros _]. apply stops_poll.
Qed.

(** What [stops_at_failure] says of one run, in terms of the requests
    the run has made. *)
Lemma stops_run {A} (m : M A) w :
  stops_at_failure r m ->
  let n := length (rpc_log w) in
  rpc_log (m w).2 = rpc_log w ++ issued m w
  /\ (forall k, k < length (issued m w) ->
                transport_fails r (n + k) = true ->
                S k = length (issued m w) /\ (m w).1 = Raised)
  /\ ((m w).1 = Raised ->
      exists k, S k = length (issued m w)
                /\ transport_fails r (n + k) = true).
Proof.
  intros Hm n. subst n. destruct (Hm w) as (l & Hl & Hpre & Hend).
  rewrite (issued_app m w l Hl). split; [done|]. split.
  - intros k Hk Hfail.
    destruct (decide (S k < length l)) as [Hlt|Hge].
    { rewrite (Hpre k Hlt) in Hfail. discriminate. }
    split; [lia|]. destruct ((m w).1); [|done|].
    + rewrite (Hend k Hk) in Hfail. discriminate.
    + rewrite (Hend k Hk) in Hfail. discriminate.
  - intros Hr. rewrite Hr in Hend. destruct Hend as (k & Hk & Hfail).
    exists k. split; [lia|done].
Qed.

End StopsAtFailure.

(** X7: [main] has no handler and no retry: whatever the device does,
    a request that fails is the last request of the run, the run raises
    and the process ends with status 1; and [main] raises only because
    its last request failed. In particular no move is requested after a
    transport error. *)
Theorem main_stops_at_first_failure router w :
  let n := length (rpc_log w) in
  let made := issued (main router) w in
  rpc_log (main router w).2 = rpc_log w ++ made
  /\ (forall k, k < length made ->
                transport_fails router (n + k) = true ->
                S k = length made
                /\ (main router w).1 = Raised
                /\ exit_status (main router w) = Some 1%Z)
  /\ ((main router w).1 = Raised ->
      exists k, S k = length made /\ transport_fails router (n + k) = true).
Proof.
  intros n made.
  destruct (stops_run router (main router) w (stops_main router))
    as (Hlog & Hfail & Hraised).
  split; [done|]. split; [|done].
  intros k Hk Hf. destruct (Hfail k Hk Hf) as [Hlast Hr].
  split; [done|]. split; [done|]. unfold exit_status. by rewrite Hr.
Qed.

(** X8: the gripper example has no handler and no retry either:
    whatever the device does and whatever the loop budget, a request
    that fails is the last request of the run and the run raises; and
    the run raises only because its last request failed. In particular
    a failed position command is followed by no other command and by no
    measurement request. *)
Theorem gripper_stops_at_first_failure base fuel w :
  let run := GripperCommandExample.ExampleSendGripperCommands base fuel in
  let n := length (rpc_log w) in
  rpc_log (run w).2 = rpc_log w ++ issued run w
  /\ (forall k, k < length (issued run w) ->
                transport_fails base (n + k) = true ->
                S k = length (issued run w) /\ (run w).1 = Raised)
  /\ ((run w).1 = Raised ->
      exists k, S k = length (issued run w)
                /\ transport_fails base (n + k) = true).
Proof.
  intros run n. apply stops_run, stops_gripper.
Qed.

Lemma main_stops_at_first_failure_witness :
  10 = length (issued (main (failing 9)) boot)
  /\ (main (failing 9) boot).1 = Raised
  /\ exit_status (main (failing 9) boot) = Some 1%Z.
Proof.
  apply (proj1 (proj2 (main_stops_at_first_failure (failing 9) boot)) 9).
  - vm_compute. lia.
  - reflexivity.
Defined.

Lemma gripper_stops_at_first_failure_witness :
  3 = length (issued (GripperCommandExample.ExampleSendGripperCommands
                        (failing 2) 10) boot)
  /\ (GripperCommandExample.ExampleSendGripperCommands (failing 2) 10
        boot).1 = Raised.
Proof.
  apply (proj1 (proj2 (gripper_stops_at_first_failure (failing 2) 10 boot))
           2).
  - vm_compute. lia.
  - reflexivity.
Defined.

(** *** The gripper example as a whole *)

Lemma measurement_after_requests base l w k :
  measurement base (after l w) k = measurement base w (length l + k).
Proof.
  unfold measurement, after; simpl. rewrite length_app. f_equal; lia.
Qed.

Lemma gripper_run base fuel w n :
  healthy base ->
  (forall k, k < n -> below (measurement base w (7 + k))) ->
  stops (measurement base w (7 + n)) ->
  6 <= fuel -> n < fuel ->
  GripperCommandExample.ExampleSendGripperCommands base fuel w
  = (Returned tt,
     after (ramp_requests ++ [speed_request]
            ++ polls {| request_mode := GRIPPER_POSITION |} (S n)) w).
Proof.
  intros H Hbelow Hstop Hfuel Hn.
  unfold GripperCommandExample.ExampleSendGripperCommands, bind.
  rewrite position_ramp_run by done.
  rewrite SendGripperCommand_healthy by done.
  rewrite after_after.
  rewrite (poll_stops_at base _ n); try done.
  - rewrite after_after. by rewrite <- app_assoc.
  - intros k Hk. rewrite measurement_after_requests. by apply Hbelow.
  - by rewrite measurement_after_requests.
Qed.

(** X9: on a healthy link the gripper example makes, in this order, the
    six position commands of the ramp, one speed command of value -0.1
    and then measurement requests only. The first measurement answered is
    that of the eighth request; when the measurements before the [n]-th
    keep the loop polling and the [n]-th stops it, the example returns
    after [n + 1] measurement requests. *)
Theorem gripper_example_requests base fuel w n :
  healthy base ->
  (forall k, k < n -> below (measurement base w (7 + k))) ->
  stops (measurement base w (7 + n)) ->
  6 <= fuel -> n < fuel ->
  let run := GripperCommandExample.ExampleSendGripperCommands base fuel in
  (run w).1 = Returned tt
  /\ issued run w
     = ramp_requests ++ [speed_request]
       ++ polls {| request_mode := GRIPPER_POSITION |} (S n)
  /\ length (issued run w) = 8 + n
  /\ events (run w).2 = events w
  /\ subscribers (run w).2 = subscribers w.
Proof.
  intros H Hbelow Hstop Hfuel Hn run. subst run.
  pose proof (gripper_run base fuel w n H Hbelow Hstop Hfuel Hn) as Hrun.
  rewrite (issued_app _ _ _ (f_equal (fun r => rpc_log r.2) Hrun)).
  rewrite Hrun. repeat split; try reflexivity.
  rewrite !length_app. unfold polls. rewrite length_replicate.
  simpl. lia.
Qed.

Lemma gripper_example_requests_witness :
  (GripperCommandExample.ExampleSendGripperCommands (steady 0.9) 6 boot).1
  = Returned tt
  /\ issued (GripperCommandExample.ExampleSendGripperCommands (steady 0.9) 6)
            boot
     = ramp_requests ++ [speed_request]
       ++ polls {| request_mode := GRIPPER_POSITION |} 1
  /\ length (issued (GripperCommandExample.ExampleSendGripperCommands
                       (steady 0.9) 6) boot) = 8 + 0
  /\ events (GripperCommandExample.ExampleSendGripperCommands
               (steady 0.9) 6 boot).2 = events boot
  /\ subscribers (GripperCommandExample.ExampleSendGripperCommands
                    (steady 0.9) 6 boot).2 = subscribers boot.
Proof.
  apply (gripper_example_requests (steady 0.9) 6 boot 0).
  - intros n; reflexivity.
  - intros k Hk; lia.
  - right. eexists _, _. split; reflexivity.
  - lia.
  - lia.
Defined.

(** X10: the gripper program does not tell a closed gripper from a
    gripper that cannot be measured: on a healthy link, when the loop is
    stopped by a first finger above the threshold and when it is stopped
    by a measurement with no finger, [main] returns and the process ends
    with status 0. *)
Theorem gripper_program_status router fuel w n :
  healthy router ->
  (forall k, k < n -> below (measurement router w (7 + k))) ->
  finger (measurement router w (7 + n)) = []
  \/ (exists finger0 rest,
         finger (measurement router w (7 + n)) = finger0 :: rest
         /\ (0.86 <? value finger0)%float = true) ->
  6 <= fuel -> n < fuel ->
  GripperGrabPen.exit_status (GripperGrabPen.main router fuel w) = Some 0%Z
  /\ length (issued (GripperGrabPen.main router fuel) w) = 8 + n.
Proof.
  intros H Hbelow Hstop Hfuel Hn.
  unfold GripperGrabPen.main, GripperGrabPen.__init__. cbn [GripperGrabPen.base].
  pose proof (gripper_run router fuel w n H Hbelow Hstop Hfuel Hn) as Hrun.
  rewrite (issued_app _ _ _ (f_equal (fun r => rpc_log r.2) Hrun)).
  unfold GripperGrabPen.exit_status. rewrite Hrun. split; [done|].
  rewrite !length_app. unfold polls. rewrite length_replicate.
  simpl. lia.
Qed.

Lemma gripper_program_status_witness :
  GripperGrabPen.exit_status (GripperGrabPen.main (scripted []) 6 boot)
  = Some 0%Z
  /\ length (issued (GripperGrabPen.main (scripted []) 6) boot) = 8 + 0.
Proof.
  apply (gripper_program_status (scripted []) 6 boot 0).
  - intros n; reflexivity.
  - intros k Hk; lia.
  - left. reflexivity.
  - lia.
  - lia.
Defined.

(** X11: a measurement whose first finger is not a number never stops
    the polling loop: on a healthy link, if the device reports NaN for
    the first finger at every poll, every loop budget is used up in as
    many measurement requests and the loop is still running. *)
Theorem poll_never_ends_on_nan base q w :
  healthy base ->
  (forall k, exists finger0 rest,
      finger (measurement base w k) = finger0 :: rest
      /\ value finger0 = nan) ->
  forall fuel,
    GripperCommandExample.poll_until_closed base fuel q w
    = (Running, after (polls q fuel) w).
Proof.
  intros H Hnan fuel. apply poll_running; [done|].
  intros k. destruct (Hnan k) as (f & rest & Hf & Hv).
  exists f, rest. split; [done|]. by rewrite Hv.
Qed.

Lemma poll_never_ends_on_nan_witness :
  GripperCommandExample.poll_until_closed (steady nan) 5
    {| request_mode := GRIPPER_POSITION |} boot
  = (Running, after (polls {| request_mode := GRIPPER_POSITION |} 5) boot).
Proof.
  apply (poll_never_ends_on_nan (steady nan)
           {| request_mode := GRIPPER_POSITION |} boot).
  - intros n; reflexivity.
  - intros k. eexists _, _. split; reflexivity.
Defined.

(** *** The notification callback *)

(** X12: the callback of an event [e] acts on that event alone. It keeps
    the number of events, never clears a flag, leaves the flag of every
    other event as it is, and does nothing when [e] is not an event of
    the heap; applying it twice to a notification is applying it once,
    and the callbacks of two events can be applied in either order. *)
Theorem check_for_end_or_abort_local e notification heap :
  let check := check_for_end_or_abort e notification in
  length (check heap) = length heap
  /\ (forall e', threading.is_set e' heap = true ->
                 threading.is_set e' (check heap) = true)
  /\ (forall e', e' <> e ->
                 threading.is_set e' (check heap) = threading.is_set e' heap)
  /\ (length heap <= e -> check heap = heap)
  /\ check (check heap) = check heap
  /\ (forall e',
         check_for_end_or_abort e' notification (check heap)
         = check (check_for_end_or_abort e' notification heap)).
Proof.
  intros check. subst check. unfold check_for_end_or_abort, threading.set.
  destruct (bool_decide (action_event notification = ACTION_END)
            || bool_decide (action_event notification = ACTION_ABORT)).
  - split; [apply length_insert|].
    split.
    { intros e' He'. unfold threading.is_set in *.
      destruct (decide (e = e')) as [<-|Hne].
      - destruct (heap !! e) as [b|] eqn:Hl; [|done].
        rewrite list_lookup_insert_eq; [done|].
        by apply lookup_lt_Some in Hl.
      - by rewrite list_lookup_insert_ne. }
    split.
    { intros e' Hne. unfold threading.is_set.
      by rewrite list_lookup_insert_ne. }
    split; [apply list_insert_ge|].
    split; [apply list_insert_insert_eq|].
    intros e'. destruct (decide (e = e')) as [<-|Hne]; [done|].
    by apply list_insert_insert_ne.
  - repeat split; done.
Qed.

End RunProofs.
